(** * Video pipe bring-up: [pipe_init] and [pipe_start_camera]

    A shallow embedding of [Vitis/common/src/pipe.c].  The file sequences
    vendor driver calls; the drivers themselves, the headers that declare
    their instance types and the configuration macros are outside the file
    and enter the model as interfaces (type classes).

    A C call [f(&(pipe->X), args)] becomes state passing: the driver is a
    function from the instance value to the new instance value (and a status
    when it has one), and every call is recorded, in program order, in a
    trace of events. *)

From Stdlib Require Import ZArith List String Lia Bool.
Import ListNotations.
Open Scope Z_scope.

(** ** Machine integers *)

Definition wrap (bits x : Z) : Z := x mod 2 ^ bits.
Definition u32 (x : Z) : Z := wrap 32 x.

(** ** Interfaces for what the file includes *)

(** [xstatus.h] and [xil_types.h]: status codes, truth values, and the width
    of [UINTPTR]. *)
Class XilTypes := {
  XST_SUCCESS : Z;
  XST_FAILURE : Z;
  TRUE : Z;
  FALSE : Z;
  UINTPTR_BITS : Z;
  XST_SUCCESS_neq_XST_FAILURE : XST_SUCCESS <> XST_FAILURE;
  TRUE_neq_FALSE : TRUE <> FALSE
}.

(** [math.h] and the C floating-point conversions used by the gamma curve. *)
Class CMath := {
  double : Type;
  float : Type;
  to_double : Z -> double;            (* (double) of an integer value *)
  to_float : Z -> float;              (* (float) of an integer value *)
  float_to_double : float -> double;  (* promotion in a double product *)
  ddiv : double -> double -> double;
  dmul : double -> double -> double;
  pow : double -> double -> double;
  double_to_u16 : double -> Z;        (* conversion to uint16_t *)
  double_to_u16_range : forall d, 0 <= double_to_u16 d < 2 ^ 16
}.

(** [config.h] and [pipe.h]: the macros the file uses. *)
Class Config `{CMath} := {
  VMODE_WIDTH : Z;
  VMODE_HEIGHT : Z;
  VMODE_FRAMERATE : Z;
  COLOR_FORMAT_ID : Z;
  VPROC_WIDTH_OUT : Z;
  VPROC_HEIGHT_OUT : Z;
  VPROC_FRAMERATE_OUT : Z;
  GAMMA_TABLE_SIZE : Z;
  GAMMA : double;
  GPIO_CAM_IO0_MASK : Z;
  GPIO_CAM_IO1_MASK : Z;
  (* the bound of the [uint32_t] loop counter is itself such a value *)
  GAMMA_TABLE_SIZE_range : 0 <= GAMMA_TABLE_SIZE < 2 ^ 32
}.

(** [xvidc.h]: the fields of a video stream description that the file
    assigns; [T] is the type of a timing table entry. *)
Record XVidC_VideoStream {T : Type} := {
  VmId : Z;
  Timing : T;
  ColorFormatId : Z;
  ColorDepth : Z;
  PixPerClk : Z;
  FrameRate : Z;
  IsInterlaced : Z
}.
Arguments XVidC_VideoStream : clear implicits.

(** The vendor drivers: instance types, the fields of them that the file
    reads, and one function per entry point the file calls.  A driver that
    takes a pointer to an instance returns the updated instance. *)
Class Drivers := {
  XGpio : Type;
  XIic : Type;
  XScuGic : Type;
  RpiCamera : Type;
  FrameBuffer : Type;
  XV_demosaic : Type;
  XV_gamma_lut : Type;
  XVprocSs : Type;
  XVprocSs_Config : Type;
  XVidC_VideoTiming : Type;

  GammaLut_Config_BaseAddress : XV_gamma_lut -> Z;
  Vproc_Config_ColorDepth : XVprocSs -> Z;
  Vproc_Config_PixPerClock : XVprocSs -> Z;
  VprocSsConfig_BaseAddress : XVprocSs_Config -> Z;

  XGpio_Initialize : XGpio -> Z -> Z * XGpio;
  XGpio_SetDataDirection : XGpio -> Z -> Z -> XGpio;
  XGpio_DiscreteWrite : XGpio -> Z -> Z -> XGpio;
  (* instance, device id, interrupt controller, interrupt id;
     yields status, instance, interrupt controller, *iic_id *)
  IicAxiInit : XIic -> Z -> XScuGic -> Z -> Z * XIic * XScuGic * Z;
  (* camera, iic_id, gpio, mask; yields status, camera, gpio *)
  rpi_cam_init : RpiCamera -> Z -> XGpio -> Z -> Z * RpiCamera * XGpio;
  rpi_cam_bayer_phase : RpiCamera -> Z;
  rpi_cam_config : RpiCamera -> Z * RpiCamera;
  FrmbufWrInit : FrameBuffer -> Z -> XScuGic -> Z -> Z -> Z * FrameBuffer * XScuGic;
  FrmbufRdInit : FrameBuffer -> Z -> XScuGic -> Z -> Z -> Z * FrameBuffer * XScuGic;
  FrmbufStart : FrameBuffer -> Z * FrameBuffer;
  XV_demosaic_Initialize : XV_demosaic -> Z -> Z * XV_demosaic;
  XV_demosaic_Set_HwReg_width : XV_demosaic -> Z -> XV_demosaic;
  XV_demosaic_Set_HwReg_height : XV_demosaic -> Z -> XV_demosaic;
  XV_demosaic_Set_HwReg_bayer_phase : XV_demosaic -> Z -> XV_demosaic;
  XV_demosaic_EnableAutoRestart : XV_demosaic -> XV_demosaic;
  XV_demosaic_Start : XV_demosaic -> XV_demosaic;
  XV_gamma_lut_Initialize : XV_gamma_lut -> Z -> Z * XV_gamma_lut;
  XV_gamma_lut_Set_HwReg_width : XV_gamma_lut -> Z -> XV_gamma_lut;
  XV_gamma_lut_Set_HwReg_height : XV_gamma_lut -> Z -> XV_gamma_lut;
  XV_gamma_lut_Set_HwReg_video_format : XV_gamma_lut -> Z -> XV_gamma_lut;
  XV_gamma_lut_Start : XV_gamma_lut -> XV_gamma_lut;
  XV_gamma_lut_EnableAutoRestart : XV_gamma_lut -> XV_gamma_lut;
  (* NULL is None *)
  XVprocSs_LookupConfig : Z -> option XVprocSs_Config;
  XVprocSs_LogReset : XVprocSs -> XVprocSs;
  XVprocSs_CfgInitialize : XVprocSs -> XVprocSs_Config -> Z -> Z * XVprocSs;
  XVprocSs_SetVidStreamIn :
    XVprocSs -> XVidC_VideoStream XVidC_VideoTiming -> XVprocSs;
  XVprocSs_SetVidStreamOut :
    XVprocSs -> XVidC_VideoStream XVidC_VideoTiming -> XVprocSs;
  XVprocSs_SetSubsystemConfig : XVprocSs -> Z * XVprocSs;
  (* the video-common table look-ups; the timing is the pointed-to entry *)
  XVidC_GetVideoModeId : Z -> Z -> Z -> Z -> Z;
  XVidC_GetTimingInfo : Z -> XVidC_VideoTiming;
  XVidC_GetFrameRate : Z -> Z;
  XVidC_IsInterlaced : Z -> Z
}.

(** The C escapes [\r] and [\n] of the console messages. *)
Definition CR : string := String (Ascii.ascii_of_nat 13) EmptyString.
Definition LF : string := String (Ascii.ascii_of_nat 10) EmptyString.

(** How a statement ends. *)
Inductive Flow (A : Type) :=
| Next (a : A)      (* fall through to the next statement *)
| Return (r : Z).   (* [return r;] *)
Arguments Next {A} a.
Arguments Return {A} r.

Section Pipe.

Context {xil : XilTypes} {cm : CMath} {cfg : Config} {drv : Drivers}.

(** ** Data *)

Record VideoPipe := {
  Gpio : XGpio;
  Iic : XIic;
  Camera : RpiCamera;
  Frmbuf : FrameBuffer;
  Demosaic : XV_demosaic;
  GammaLut : XV_gamma_lut;
  Vproc : XVprocSs;
  IsConnected : Z
}.

Record VideoPipeDevIds := {
  devids_Gpio : Z;
  devids_Iic : Z;
  devids_IicIntr : Z;
  devids_FrmbufWr : Z;
  devids_FrmbufWrIntr : Z;
  devids_FrmbufRd : Z;
  devids_FrmbufRdIntr : Z;
  devids_FrmbufBufrBaseAddr : Z;
  devids_Demosaic : Z;
  devids_GammaLut : Z;
  devids_Vproc : Z
}.

(** Field assignment [pipe->X = v]. *)
Definition set_Gpio (v : XGpio) (p : VideoPipe) : VideoPipe :=
  {| Gpio := v; Iic := Iic p; Camera := Camera p; Frmbuf := Frmbuf p;
     Demosaic := Demosaic p; GammaLut := GammaLut p; Vproc := Vproc p;
     IsConnected := IsConnected p |}.
Definition set_Iic (v : XIic) (p : VideoPipe) : VideoPipe :=
  {| Gpio := Gpio p; Iic := v; Camera := Camera p; Frmbuf := Frmbuf p;
     Demosaic := Demosaic p; GammaLut := GammaLut p; Vproc := Vproc p;
     IsConnected := IsConnected p |}.
Definition set_Camera (v : RpiCamera) (p : VideoPipe) : VideoPipe :=
  {| Gpio := Gpio p; Iic := Iic p; Camera := v; Frmbuf := Frmbuf p;
     Demosaic := Demosaic p; GammaLut := GammaLut p; Vproc := Vproc p;
     IsConnected := IsConnected p |}.
Definition set_Frmbuf (v : FrameBuffer) (p : VideoPipe) : VideoPipe :=
  {| Gpio := Gpio p; Iic := Iic p; Camera := Camera p; Frmbuf := v;
     Demosaic := Demosaic p; GammaLut := GammaLut p; Vproc := Vproc p;
     IsConnected := IsConnected p |}.
Definition set_Demosaic (v : XV_demosaic) (p : VideoPipe) : VideoPipe :=
  {| Gpio := Gpio p; Iic := Iic p; Camera := Camera p; Frmbuf := Frmbuf p;
     Demosaic := v; GammaLut := GammaLut p; Vproc := Vproc p;
     IsConnected := IsConnected p |}.
Definition set_GammaLut (v : XV_gamma_lut) (p : VideoPipe) : VideoPipe :=
  {| Gpio := Gpio p; Iic := Iic p; Camera := Camera p; Frmbuf := Frmbuf p;
     Demosaic := Demosaic p; GammaLut := v; Vproc := Vproc p;
     IsConnected := IsConnected p |}.
Definition set_Vproc (v : XVprocSs) (p : VideoPipe) : VideoPipe :=
  {| Gpio := Gpio p; Iic := Iic p; Camera := Camera p; Frmbuf := Frmbuf p;
     Demosaic := Demosaic p; GammaLut := GammaLut p; Vproc := v;
     IsConnected := IsConnected p |}.
Definition set_IsConnected (v : Z) (p : VideoPipe) : VideoPipe :=
  {| Gpio := Gpio p; Iic := Iic p; Camera := Camera p; Frmbuf := Frmbuf p;
     Demosaic := Demosaic p; GammaLut := GammaLut p; Vproc := Vproc p;
     IsConnected := v |}.

(** What the two functions act on: the pipe and the interrupt controller
    behind the [intc] pointer. *)
Record Mem := {
  m_pipe : VideoPipe;
  m_intc : XScuGic
}.

(** ** Events: one per call that leaves the file, with its arguments and,
    where the callee hands one back, its result ([Status], the value left in
    [iic_id], the configuration found, the phase).  An instance argument is
    the instance as it is when the call is made.  The assignments to the
    caller-visible flag [pipe->IsConnected] are events too. *)
Inductive Event :=
| EvXGpio_Initialize (g : XGpio) (DeviceId : Z) (Status : Z)
| EvXGpio_SetDataDirection (g : XGpio) (Channel DirectionMask : Z)
| EvXGpio_DiscreteWrite (g : XGpio) (Channel Data : Z)
| EvIicAxiInit (i : XIic) (DeviceId : Z) (intc : XScuGic) (IntrId : Z)
    (Status iic_id : Z)
| Evrpi_cam_init (c : RpiCamera) (iic_id : Z) (g : XGpio) (mask : Z) (Status : Z)
| Evrpi_cam_bayer_phase (c : RpiCamera) (phase : Z)
| EvFrmbufWrInit (f : FrameBuffer) (DeviceId : Z) (intc : XScuGic) (IntrId Addr : Z)
    (Status : Z)
| EvFrmbufRdInit (f : FrameBuffer) (DeviceId : Z) (intc : XScuGic) (IntrId Addr : Z)
    (Status : Z)
| EvXV_demosaic_Initialize (d : XV_demosaic) (DeviceId : Z) (Status : Z)
| EvXV_demosaic_Set_HwReg_width (d : XV_demosaic) (v : Z)
| EvXV_demosaic_Set_HwReg_height (d : XV_demosaic) (v : Z)
| EvXV_demosaic_Set_HwReg_bayer_phase (d : XV_demosaic) (v : Z)
| EvXV_demosaic_EnableAutoRestart (d : XV_demosaic)
| EvXV_demosaic_Start (d : XV_demosaic)
| EvXV_gamma_lut_Initialize (l : XV_gamma_lut) (DeviceId : Z) (Status : Z)
| EvXV_gamma_lut_Set_HwReg_width (l : XV_gamma_lut) (v : Z)
| EvXV_gamma_lut_Set_HwReg_height (l : XV_gamma_lut) (v : Z)
| EvXV_gamma_lut_Set_HwReg_video_format (l : XV_gamma_lut) (v : Z)
| EvXil_Out16 (Addr Value : Z)
| EvXV_gamma_lut_Start (l : XV_gamma_lut)
| EvXV_gamma_lut_EnableAutoRestart (l : XV_gamma_lut)
| EvXVprocSs_LookupConfig (DeviceId : Z) (found : option XVprocSs_Config)
| EvXVprocSs_LogReset (v : XVprocSs)
| EvXVprocSs_CfgInitialize (v : XVprocSs) (c : XVprocSs_Config) (EffectiveAddr : Z)
    (Status : Z)
| EvXVprocSs_SetVidStreamIn (v : XVprocSs) (s : XVidC_VideoStream XVidC_VideoTiming)
| EvXVprocSs_SetVidStreamOut (v : XVprocSs) (s : XVidC_VideoStream XVidC_VideoTiming)
| EvXVprocSs_SetSubsystemConfig (v : XVprocSs) (Status : Z)
| Evrpi_cam_config (c : RpiCamera) (Status : Z)
| EvFrmbufStart (f : FrameBuffer) (Status : Z)
| Evxil_printf (msg : string)
| EvWrite_IsConnected (v : Z).   (* the assignment [pipe->IsConnected = v] *)

(** ** Control: state, trace and early return *)

Definition M (A : Type) : Type := Mem -> Flow A * Mem * list Event.

Definition ret {A} (a : A) : M A := fun m => (Next a, m, []).

Definition bind {A B} (c : M A) (k : A -> M B) : M B :=
  fun m =>
    match c m with
    | (Next a, m1, t1) =>
        match k a m1 with
        | (f, m2, t2) => (f, m2, t1 ++ t2)
        end
    | (Return v, m1, t1) => (Return v, m1, t1)
    end.

Notation "x <- c ;; k" := (bind c (fun x => k))
  (at level 61, c at next level, right associativity).
Notation "c ;; k" := (bind c (fun _ => k))
  (at level 61, right associativity).

Definition return_ {A} (v : Z) : M A := fun m => (Return v, m, []).
Definition emit (e : Event) : M unit := fun m => (Next tt, m, [e]).
Definition load {A} (f : VideoPipe -> A) : M A :=
  fun m => (Next (f (m_pipe m)), m, []).
Definition store (f : VideoPipe -> VideoPipe) : M unit :=
  fun m => (Next tt, {| m_pipe := f (m_pipe m); m_intc := m_intc m |}, []).
Definition load_intc : M XScuGic := fun m => (Next (m_intc m), m, []).
Definition store_intc (v : XScuGic) : M unit :=
  fun m => (Next tt, {| m_pipe := m_pipe m; m_intc := v |}, []).

(** [if (c) { body }] *)
Definition when (c : bool) (body : M unit) : M unit :=
  if c then body else ret tt.

(** Running a function body: the value handed to the caller, the final
    memory and the trace. *)
Definition status_of (f : Flow Z) : Z :=
  match f with Next a => a | Return r => r end.
Definition run (body : M Z) (m : Mem) : Z * Mem * list Event :=
  match body m with (f, m', t) => (status_of f, m', t) end.
Definition result (body : M Z) (m : Mem) : Z := fst (fst (run body m)).
Definition final (body : M Z) (m : Mem) : Mem := snd (fst (run body m)).
Definition trace (body : M Z) (m : Mem) : list Event := snd (run body m).

(** ** Calls into the drivers *)

(** A pointer to a field of the pipe, [&(pipe->X)]. *)
Record Ref (A : Type) := {
  rd : VideoPipe -> A;
  wr : A -> VideoPipe -> VideoPipe
}.
Arguments rd {A} r p.
Arguments wr {A} r v p.

Definition pGpio : Ref XGpio := {| rd := Gpio; wr := set_Gpio |}.
Definition pIic : Ref XIic := {| rd := Iic; wr := set_Iic |}.
Definition pCamera : Ref RpiCamera := {| rd := Camera; wr := set_Camera |}.
Definition pFrmbuf : Ref FrameBuffer := {| rd := Frmbuf; wr := set_Frmbuf |}.
Definition pDemosaic : Ref XV_demosaic := {| rd := Demosaic; wr := set_Demosaic |}.
Definition pGammaLut : Ref XV_gamma_lut := {| rd := GammaLut; wr := set_GammaLut |}.
Definition pVproc : Ref XVprocSs := {| rd := Vproc; wr := set_Vproc |}.

(** A driver call on one instance that yields a status. *)
Definition call_status {A} (r : Ref A) (ev : A -> Z -> Event) (f : A -> Z * A) : M Z :=
  x <- load (rd r) ;;
  emit (ev x (fst (f x))) ;;
  store (wr r (snd (f x))) ;;
  ret (fst (f x)).

(** A driver call on one instance of which the code takes no result. *)
Definition call_void {A} (r : Ref A) (ev : A -> Event) (f : A -> A) : M unit :=
  x <- load (rd r) ;;
  emit (ev x) ;;
  store (wr r (f x)).

Definition call_XGpio_Initialize (r : Ref XGpio) (DeviceId : Z) : M Z :=
  call_status r (fun g => EvXGpio_Initialize g DeviceId)
                (fun g => XGpio_Initialize g DeviceId).
Definition call_XGpio_SetDataDirection (r : Ref XGpio) (Channel Mask : Z) : M unit :=
  call_void r (fun g => EvXGpio_SetDataDirection g Channel Mask)
              (fun g => XGpio_SetDataDirection g Channel Mask).
Definition call_XGpio_DiscreteWrite (r : Ref XGpio) (Channel Data : Z) : M unit :=
  call_void r (fun g => EvXGpio_DiscreteWrite g Channel Data)
              (fun g => XGpio_DiscreteWrite g Channel Data).

(** [IicAxiInit(&(pipe->Iic), id, intc, intr, &iic_id)]: yields the status
    and the value left in [iic_id]. *)
Definition call_IicAxiInit (r : Ref XIic) (DeviceId IntrId : Z) : M (Z * Z) :=
  i <- load (rd r) ;;
  c <- load_intc ;;
  let out := IicAxiInit i DeviceId c IntrId in
  emit (EvIicAxiInit i DeviceId c IntrId (fst (fst (fst out))) (snd out)) ;;
  store (wr r (snd (fst (fst out)))) ;;
  store_intc (snd (fst out)) ;;
  ret (fst (fst (fst out)), snd out).

Definition call_rpi_cam_init (r : Ref RpiCamera) (iic_id : Z) (rg : Ref XGpio)
    (mask : Z) : M Z :=
  c <- load (rd r) ;;
  g <- load (rd rg) ;;
  let out := rpi_cam_init c iic_id g mask in
  emit (Evrpi_cam_init c iic_id g mask (fst (fst out))) ;;
  store (wr r (snd (fst out))) ;;
  store (wr rg (snd out)) ;;
  ret (fst (fst out)).

Definition call_rpi_cam_bayer_phase (r : Ref RpiCamera) : M Z :=
  c <- load (rd r) ;;
  emit (Evrpi_cam_bayer_phase c (rpi_cam_bayer_phase c)) ;;
  ret (rpi_cam_bayer_phase c).

Definition call_rpi_cam_config (r : Ref RpiCamera) : M Z :=
  call_status r Evrpi_cam_config rpi_cam_config.

Definition call_Frmbuf_init
    (ev : FrameBuffer -> Z -> XScuGic -> Z -> Z -> Z -> Event)
    (f : FrameBuffer -> Z -> XScuGic -> Z -> Z -> Z * FrameBuffer * XScuGic)
    (r : Ref FrameBuffer) (DeviceId IntrId Addr : Z) : M Z :=
  b <- load (rd r) ;;
  c <- load_intc ;;
  let out := f b DeviceId c IntrId Addr in
  emit (ev b DeviceId c IntrId Addr (fst (fst out))) ;;
  store (wr r (snd (fst out))) ;;
  store_intc (snd out) ;;
  ret (fst (fst out)).
Definition call_FrmbufWrInit (r : Ref FrameBuffer) (DeviceId IntrId Addr : Z) : M Z :=
  call_Frmbuf_init EvFrmbufWrInit FrmbufWrInit r DeviceId IntrId Addr.
Definition call_FrmbufRdInit (r : Ref FrameBuffer) (DeviceId IntrId Addr : Z) : M Z :=
  call_Frmbuf_init EvFrmbufRdInit FrmbufRdInit r DeviceId IntrId Addr.
Definition call_FrmbufStart (r : Ref FrameBuffer) : M Z :=
  call_status r EvFrmbufStart FrmbufStart.

Definition call_XV_demosaic_Initialize (r : Ref XV_demosaic) (DeviceId : Z) : M Z :=
  call_status r (fun d => EvXV_demosaic_Initialize d DeviceId)
                (fun d => XV_demosaic_Initialize d DeviceId).
Definition call_XV_demosaic_Set_HwReg_width (r : Ref XV_demosaic) (v : Z) : M unit :=
  call_void r (fun d => EvXV_demosaic_Set_HwReg_width d v)
              (fun d => XV_demosaic_Set_HwReg_width d v).
Definition call_XV_demosaic_Set_HwReg_height (r : Ref XV_demosaic) (v : Z) : M unit :=
  call_void r (fun d => EvXV_demosaic_Set_HwReg_height d v)
              (fun d => XV_demosaic_Set_HwReg_height d v).
Definition call_XV_demosaic_Set_HwReg_bayer_phase (r : Ref XV_demosaic) (v : Z) : M unit :=
  call_void r (fun d => EvXV_demosaic_Set_HwReg_bayer_phase d v)
              (fun d => XV_demosaic_Set_HwReg_bayer_phase d v).
Definition call_XV_demosaic_EnableAutoRestart (r : Ref XV_demosaic) : M unit :=
  call_void r EvXV_demosaic_EnableAutoRestart XV_demosaic_EnableAutoRestart.
Definition call_XV_demosaic_Start (r : Ref XV_demosaic) : M unit :=
  call_void r EvXV_demosaic_Start XV_demosaic_Start.

Definition call_XV_gamma_lut_Initialize (r : Ref XV_gamma_lut) (DeviceId : Z) : M Z :=
  call_status r (fun l => EvXV_gamma_lut_Initialize l DeviceId)
                (fun l => XV_gamma_lut_Initialize l DeviceId).
Definition call_XV_gamma_lut_Set_HwReg_width (r : Ref XV_gamma_lut) (v : Z) : M unit :=
  call_void r (fun l => EvXV_gamma_lut_Set_HwReg_width l v)
              (fun l => XV_gamma_lut_Set_HwReg_width l v).
Definition call_XV_gamma_lut_Set_HwReg_height (r : Ref XV_gamma_lut) (v : Z) : M unit :=
  call_void r (fun l => EvXV_gamma_lut_Set_HwReg_height l v)
              (fun l => XV_gamma_lut_Set_HwReg_height l v).
Definition call_XV_gamma_lut_Set_HwReg_video_format (r : Ref XV_gamma_lut) (v : Z) : M unit :=
  call_void r (fun l => EvXV_gamma_lut_Set_HwReg_video_format l v)
              (fun l => XV_gamma_lut_Set_HwReg_video_format l v).
Definition call_XV_gamma_lut_Start (r : Ref XV_gamma_lut) : M unit :=
  call_void r EvXV_gamma_lut_Start XV_gamma_lut_Start.
Definition call_XV_gamma_lut_EnableAutoRestart (r : Ref XV_gamma_lut) : M unit :=
  call_void r EvXV_gamma_lut_EnableAutoRestart XV_gamma_lut_EnableAutoRestart.

Definition call_XVprocSs_LookupConfig (DeviceId : Z) : M (option XVprocSs_Config) :=
  emit (EvXVprocSs_LookupConfig DeviceId (XVprocSs_LookupConfig DeviceId)) ;;
  ret (XVprocSs_LookupConfig DeviceId).
Definition call_XVprocSs_LogReset (r : Ref XVprocSs) : M unit :=
  call_void r EvXVprocSs_LogReset XVprocSs_LogReset.
Definition call_XVprocSs_CfgInitialize (r : Ref XVprocSs) (c : XVprocSs_Config)
    (EffectiveAddr : Z) : M Z :=
  call_status r (fun v => EvXVprocSs_CfgInitialize v c EffectiveAddr)
                (fun v => XVprocSs_CfgInitialize v c EffectiveAddr).
Definition call_XVprocSs_SetVidStreamIn (r : Ref XVprocSs)
    (s : XVidC_VideoStream XVidC_VideoTiming) : M unit :=
  call_void r (fun v => EvXVprocSs_SetVidStreamIn v s)
              (fun v => XVprocSs_SetVidStreamIn v s).
Definition call_XVprocSs_SetVidStreamOut (r : Ref XVprocSs)
    (s : XVidC_VideoStream XVidC_VideoTiming) : M unit :=
  call_void r (fun v => EvXVprocSs_SetVidStreamOut v s)
              (fun v => XVprocSs_SetVidStreamOut v s).
Definition call_XVprocSs_SetSubsystemConfig (r : Ref XVprocSs) : M Z :=
  call_status r EvXVprocSs_SetSubsystemConfig XVprocSs_SetSubsystemConfig.

(** [pipe->IsConnected = v;] *)
Definition assign_IsConnected (v : Z) : M unit :=
  emit (EvWrite_IsConnected v) ;;
  store (set_IsConnected v).

Definition xil_printf (msg : string) : M unit := emit (Evxil_printf msg).
Definition Xil_Out16 (Addr Value : Z) : M unit := emit (EvXil_Out16 Addr Value).

(** ** The gamma curve *)

Definition uintptr (x : Z) : Z := wrap UINTPTR_BITS x.

(** [pow((i / (double)GAMMA_TABLE_SIZE), GAMMA) * (float)GAMMA_TABLE_SIZE],
    converted to [uint16_t]. *)
Definition gamma_value (i : Z) : Z :=
  double_to_u16
    (dmul (pow (ddiv (to_double i) (to_double GAMMA_TABLE_SIZE)) GAMMA)
          (float_to_double (to_float GAMMA_TABLE_SIZE))).

(** [BaseAddress + off + i*2]: the sum is taken in [UINTPTR], the product in
    [uint32_t]. *)
Definition lut_addr (base off i : Z) : Z :=
  uintptr (uintptr (base + off) + u32 (i * 2)).

Definition gamma_body (i : Z) : M unit :=
  let value := gamma_value i in
  base <- load (fun p => GammaLut_Config_BaseAddress (GammaLut p)) ;;
  Xil_Out16 (lut_addr base 0x800 i) value ;;
  base <- load (fun p => GammaLut_Config_BaseAddress (GammaLut p)) ;;
  Xil_Out16 (lut_addr base 0x1000 i) value ;;
  base <- load (fun p => GammaLut_Config_BaseAddress (GammaLut p)) ;;
  Xil_Out16 (lut_addr base 0x1800 i) value.

(** [for (uint32_t i = ...; i < GAMMA_TABLE_SIZE; i++) body]: [n] is the
    number of iterations still to make, [i] the counter.  The loop is entered
    with [i = 0] and [n = GAMMA_TABLE_SIZE], a value of the counter's type
    ([GAMMA_TABLE_SIZE_range]), so the test [i < GAMMA_TABLE_SIZE] holds
    exactly as long as [n] is not [0]. *)
Fixpoint gamma_loop (n : nat) (i : Z) : M unit :=
  match n with
  | O => ret tt
  | S n' => gamma_body i ;; gamma_loop n' (u32 (i + 1))
  end.

(** ** The two entry points *)

Definition pipe_init (devids : VideoPipeDevIds) : M Z :=
  (* Initialize the GPIO driver *)
  Status <- call_XGpio_Initialize pGpio (devids_Gpio devids) ;;
  when (negb (Status =? XST_SUCCESS)) (
    xil_printf ("Gpio Initialization Failed" ++ CR ++ LF)%string ;;
    return_ XST_FAILURE) ;;
  (* Set GPIO directions (1=input, 0=output) *)
  call_XGpio_SetDataDirection pGpio 1
    (u32 (Z.lnot (GPIO_CAM_IO0_MASK + GPIO_CAM_IO1_MASK))) ;;
  (* Enable the camera *)
  call_XGpio_DiscreteWrite pGpio 1 (u32 GPIO_CAM_IO0_MASK) ;;
  (* Initialize the IIC for communication with camera *)
  r <- call_IicAxiInit pIic (devids_Iic devids) (devids_IicIntr devids) ;;
  let Status := fst r in
  let iic_id := snd r in
  when (negb (Status =? XST_SUCCESS)) (
    xil_printf ("Failed to initialize the I2C" ++ LF ++ CR)%string ;;
    return_ XST_FAILURE) ;;
  (* Initialize the camera *)
  Status <- call_rpi_cam_init pCamera iic_id pGpio GPIO_CAM_IO0_MASK ;;
  when (Status =? XST_FAILURE) (
    assign_IsConnected FALSE ;;
    return_ XST_FAILURE) ;;
  (* Frame Buffer Wr/Rd initialization and config *)
  Status <- call_FrmbufWrInit pFrmbuf (devids_FrmbufWr devids)
              (devids_FrmbufWrIntr devids) (devids_FrmbufBufrBaseAddr devids) ;;
  when (negb (Status =? XST_SUCCESS)) (
    xil_printf ("Failed to initialize the Frame Buffer Write" ++ LF ++ CR)%string ;;
    return_ XST_FAILURE) ;;
  Status <- call_FrmbufRdInit pFrmbuf (devids_FrmbufRd devids)
              (devids_FrmbufRdIntr devids) (devids_FrmbufBufrBaseAddr devids) ;;
  when (negb (Status =? XST_SUCCESS)) (
    xil_printf ("Failed to initialize the Frame Buffer Read" ++ LF ++ CR)%string ;;
    return_ XST_FAILURE) ;;
  (* Demosaic initialization and config *)
  call_XV_demosaic_Initialize pDemosaic (devids_Demosaic devids) ;;
  call_XV_demosaic_Set_HwReg_width pDemosaic VMODE_WIDTH ;;
  call_XV_demosaic_Set_HwReg_height pDemosaic VMODE_HEIGHT ;;
  phase <- call_rpi_cam_bayer_phase pCamera ;;
  call_XV_demosaic_Set_HwReg_bayer_phase pDemosaic phase ;;
  call_XV_demosaic_EnableAutoRestart pDemosaic ;;
  call_XV_demosaic_Start pDemosaic ;;
  (* Gamma LUT initialization and config *)
  Status <- call_XV_gamma_lut_Initialize pGammaLut (devids_GammaLut devids) ;;
  when (negb (Status =? XST_SUCCESS)) (
    xil_printf ("ERROR: Failed to initialize the Gamma LUT" ++ LF ++ CR)%string ;;
    return_ XST_FAILURE) ;;
  call_XV_gamma_lut_Set_HwReg_width pGammaLut VMODE_WIDTH ;;
  call_XV_gamma_lut_Set_HwReg_height pGammaLut VMODE_HEIGHT ;;
  call_XV_gamma_lut_Set_HwReg_video_format pGammaLut 0 ;;
  gamma_loop (Z.to_nat GAMMA_TABLE_SIZE) 0 ;;
  call_XV_gamma_lut_Start pGammaLut ;;
  call_XV_gamma_lut_EnableAutoRestart pGammaLut ;;
  (* Video Processor Subsystem initialization and config *)
  VprocSsConfigPtr <- call_XVprocSs_LookupConfig (devids_Vproc devids) ;;
  match VprocSsConfigPtr with
  | None =>
      xil_printf ("ERROR: Video Processor Subsystem device not found" ++ CR ++ LF)%string ;;
      return_ XST_FAILURE
  | Some VprocSsConfig =>
      (* Start capturing event log *)
      call_XVprocSs_LogReset pVproc ;;
      Status <- call_XVprocSs_CfgInitialize pVproc VprocSsConfig
                  (VprocSsConfig_BaseAddress VprocSsConfig) ;;
      when (negb (Status =? XST_SUCCESS)) (
        xil_printf ("ERROR: Video Processing Subsystem Init. error" ++ LF ++ CR)%string ;;
        return_ XST_FAILURE) ;;
      (* Configure the Video Processing Subsystem INPUT stream parameters *)
      let resId := XVidC_GetVideoModeId VMODE_WIDTH VMODE_HEIGHT VMODE_FRAMERATE FALSE in
      let TimingPtr := XVidC_GetTimingInfo resId in
      depth <- load (fun p => Vproc_Config_ColorDepth (Vproc p)) ;;
      ppc <- load (fun p => Vproc_Config_PixPerClock (Vproc p)) ;;
      let Stream :=
        {| VmId := resId;
           Timing := TimingPtr;
           ColorFormatId := COLOR_FORMAT_ID;
           ColorDepth := depth;
           PixPerClk := ppc;
           FrameRate := XVidC_GetFrameRate resId;
           IsInterlaced := XVidC_IsInterlaced resId |} in
      call_XVprocSs_SetVidStreamIn pVproc Stream ;;
      (* Configure the Video Processing Subsystem OUTPUT stream parameters *)
      let resId := XVidC_GetVideoModeId VPROC_WIDTH_OUT VPROC_HEIGHT_OUT VPROC_FRAMERATE_OUT FALSE in
      let TimingPtr := XVidC_GetTimingInfo resId in
      depth <- load (fun p => Vproc_Config_ColorDepth (Vproc p)) ;;
      ppc <- load (fun p => Vproc_Config_PixPerClock (Vproc p)) ;;
      let Stream :=
        {| VmId := resId;
           Timing := TimingPtr;
           ColorFormatId := COLOR_FORMAT_ID;
           ColorDepth := depth;
           PixPerClk := ppc;
           FrameRate := XVidC_GetFrameRate resId;
           IsInterlaced := XVidC_IsInterlaced resId |} in
      call_XVprocSs_SetVidStreamOut pVproc Stream ;;
      (* Start the Video Processor Subsystem *)
      Status <- call_XVprocSs_SetSubsystemConfig pVproc ;;
      assign_IsConnected TRUE ;;
      return_ XST_SUCCESS
  end.

Definition pipe_start_camera : M Z :=
  (* Start the RPi camera *)
  Status <- call_rpi_cam_config pCamera ;;
  (* Start the Frame buffers *)
  Status <- call_FrmbufStart pFrmbuf ;;
  return_ Status.

(** ** What a run is judged by *)

(** [wp c m Q]: running [c] from memory [m] ends in a flow, a memory and a
    trace that satisfy [Q]. *)
Definition wp {A} (c : M A) (m : Mem) (Q : Flow A -> Mem -> list Event -> Prop) : Prop :=
  Q (fst (fst (c m))) (snd (fst (c m))) (snd (c m)).

(** The initialization steps, in the words of the file's comments. *)
Inductive InitStep :=
| StepGpio | StepI2C | StepCamera | StepFrmbufWr | StepFrmbufRd
| StepDemosaic | StepGammaLut | StepVproc.

Definition init_step (e : Event) : list InitStep :=
  match e with
  | EvXGpio_Initialize _ _ _ => [StepGpio]
  | EvIicAxiInit _ _ _ _ _ _ => [StepI2C]
  | Evrpi_cam_init _ _ _ _ _ => [StepCamera]
  | EvFrmbufWrInit _ _ _ _ _ _ => [StepFrmbufWr]
  | EvFrmbufRdInit _ _ _ _ _ _ => [StepFrmbufRd]
  | EvXV_demosaic_Initialize _ _ _ => [StepDemosaic]
  | EvXV_gamma_lut_Initialize _ _ _ => [StepGammaLut]
  | EvXVprocSs_CfgInitialize _ _ _ _ => [StepVproc]
  | _ => []
  end.

(** The initialization calls of a trace, in the order they were made. *)
Definition init_steps (t : list Event) : list InitStep := flat_map init_step t.

Definition pipe_init_order : list InitStep :=
  [StepGpio; StepI2C; StepCamera; StepFrmbufWr; StepFrmbufRd;
   StepDemosaic; StepGammaLut; StepVproc].

(** The callee reported that it did not succeed. *)
Definition reports_failure (e : Event) : bool :=
  match e with
  | EvXGpio_Initialize _ _ s
  | EvIicAxiInit _ _ _ _ s _
  | Evrpi_cam_init _ _ _ _ s
  | EvFrmbufWrInit _ _ _ _ _ s
  | EvFrmbufRdInit _ _ _ _ _ s
  | EvXV_demosaic_Initialize _ _ s
  | EvXV_gamma_lut_Initialize _ _ s
  | EvXVprocSs_CfgInitialize _ _ _ s
  | EvXVprocSs_SetSubsystemConfig _ s => negb (s =? XST_SUCCESS)
  | EvXVprocSs_LookupConfig _ None => true
  | _ => false
  end.

(** The failures [pipe_init] tests for, each with the test the code makes. *)
Definition tested_failure (e : Event) : bool :=
  match e with
  | EvXGpio_Initialize _ _ s
  | EvIicAxiInit _ _ _ _ s _
  | EvFrmbufWrInit _ _ _ _ _ s
  | EvFrmbufRdInit _ _ _ _ _ s
  | EvXV_gamma_lut_Initialize _ _ s
  | EvXVprocSs_CfgInitialize _ _ _ s => negb (s =? XST_SUCCESS)
  | Evrpi_cam_init _ _ _ _ s => s =? XST_FAILURE
  | EvXVprocSs_LookupConfig _ None => true
  | _ => false
  end.

(** The stream descriptions handed to the video processing subsystem. *)
Inductive StreamCfg :=
| StreamIn (s : XVidC_VideoStream XVidC_VideoTiming)
| StreamOut (s : XVidC_VideoStream XVidC_VideoTiming).

Definition stream_cfg (e : Event) : list StreamCfg :=
  match e with
  | EvXVprocSs_SetVidStreamIn _ s => [StreamIn s]
  | EvXVprocSs_SetVidStreamOut _ s => [StreamOut s]
  | _ => []
  end.
Definition stream_cfgs (t : list Event) : list StreamCfg := flat_map stream_cfg t.

(** A stream of [width] x [height] at [rate]: the mode is looked up as
    non-interlaced, timing, frame rate and interlacing are those of the mode,
    the colour format is [COLOR_FORMAT_ID]. *)
Definition fixed_stream (width height rate depth ppc : Z)
    : XVidC_VideoStream XVidC_VideoTiming :=
  let mode := XVidC_GetVideoModeId width height rate FALSE in
  {| VmId := mode;
     Timing := XVidC_GetTimingInfo mode;
     ColorFormatId := COLOR_FORMAT_ID;
     ColorDepth := depth;
     PixPerClk := ppc;
     FrameRate := XVidC_GetFrameRate mode;
     IsInterlaced := XVidC_IsInterlaced mode |}.

(** The 16-bit register writes of a trace, as (address, value). *)
Definition out16 (e : Event) : list (Z * Z) :=
  match e with
  | EvXil_Out16 a v => [(a, v)]
  | _ => []
  end.
Definition out16s (t : list Event) : list (Z * Z) := flat_map out16 t.

(** The three writes of one iteration of the gamma loop. *)
Definition gamma_writes (base i : Z) : list Event :=
  [ EvXil_Out16 (lut_addr base 0x800 i) (gamma_value i);
    EvXil_Out16 (lut_addr base 0x1000 i) (gamma_value i);
    EvXil_Out16 (lut_addr base 0x1800 i) (gamma_value i) ].

(** The trace of [n] iterations that start with the counter at [i]. *)
Fixpoint gamma_trace (base : Z) (n : nat) (i : Z) : list Event :=
  match n with
  | O => []
  | S n' => gamma_writes base i ++ gamma_trace base n' (u32 (i + 1))
  end.

(** The look-up tables as the claim describes them: for every index below
    [GAMMA_TABLE_SIZE], in increasing order, the same value at the three
    channel offsets. *)
Definition lut_entries (base i : Z) : list (Z * Z) :=
  [ (lut_addr base 0x800 i, gamma_value i);
    (lut_addr base 0x1000 i, gamma_value i);
    (lut_addr base 0x1800 i, gamma_value i) ].
Definition gamma_table (base : Z) : list (Z * Z) :=
  flat_map (lut_entries base)
           (map Z.of_nat (seq 0 (Z.to_nat GAMMA_TABLE_SIZE))).

(** The assignments to [pipe->IsConnected] of a trace. *)
Definition flag_write (e : Event) : list Z :=
  match e with
  | EvWrite_IsConnected v => [v]
  | _ => []
  end.
Definition flag_writes (t : list Event) : list Z := flat_map flag_write t.

(** The camera initialization reported [XST_FAILURE]. *)
Definition camera_failure (e : Event) : bool :=
  match e with
  | Evrpi_cam_init _ _ _ _ s => s =? XST_FAILURE
  | _ => false
  end.

(** The gamma LUT initialization reported [XST_SUCCESS]. *)
Definition gamma_lut_initialized (e : Event) : bool :=
  match e with
  | EvXV_gamma_lut_Initialize _ _ s => s =? XST_SUCCESS
  | _ => false
  end.

(** The calls that talk to the camera over I2C. *)
Definition is_iic_or_camera_init (e : Event) : bool :=
  match e with
  | EvIicAxiInit _ _ _ _ _ _ | Evrpi_cam_init _ _ _ _ _ => true
  | _ => false
  end.

(** The frame-geometry registers written on the way. *)
Inductive GeomReg :=
| DemosaicWidth | DemosaicHeight | DemosaicBayerPhase | GammaWidth | GammaHeight.

Definition geom_write (e : Event) : list (GeomReg * Z) :=
  match e with
  | EvXV_demosaic_Set_HwReg_width _ v => [(DemosaicWidth, v)]
  | EvXV_demosaic_Set_HwReg_height _ v => [(DemosaicHeight, v)]
  | EvXV_demosaic_Set_HwReg_bayer_phase _ v => [(DemosaicBayerPhase, v)]
  | EvXV_gamma_lut_Set_HwReg_width _ v => [(GammaWidth, v)]
  | EvXV_gamma_lut_Set_HwReg_height _ v => [(GammaHeight, v)]
  | _ => []
  end.
Definition geom_writes (t : list Event) : list (GeomReg * Z) := flat_map geom_write t.

(** The three ways [pipe_init] can leave [pipe->IsConnected], for a run from
    memory [m] that returned [r] with memory [m'] and trace [t]. *)
Definition flag_outcome (m : Mem) (r : Z) (m' : Mem) (t : list Event) : Prop :=
  (* success: set to TRUE, as the last thing done *)
  (r = XST_SUCCESS /\ IsConnected (m_pipe m') = TRUE /\
   exists pre, t = pre ++ [EvWrite_IsConnected TRUE] /\ flag_writes pre = []) \/
  (* the camera initialization reported XST_FAILURE: set to FALSE *)
  (r = XST_FAILURE /\ IsConnected (m_pipe m') = FALSE /\
   exists pre c iic_id g mask,
     t = pre ++ [Evrpi_cam_init c iic_id g mask XST_FAILURE;
                 EvWrite_IsConnected FALSE] /\
     flag_writes pre = []) \/
  (* any other failure: never assigned *)
  (r = XST_FAILURE /\ IsConnected (m_pipe m') = IsConnected (m_pipe m) /\
   flag_writes t = [] /\ existsb camera_failure t = false).

(** ** Further views of a trace *)

(** A call into a driver or a register write, as opposed to console output
    and the assignment of the flag. *)
Definition is_driver_call (e : Event) : bool :=
  match e with
  | Evxil_printf _ | EvWrite_IsConnected _ => false
  | _ => true
  end.

(** Nothing but console output and the flag assignment follows the first
    failure that [pipe_init] tests for. *)
Fixpoint stops_at_tested_failure (t : list Event) : bool :=
  match t with
  | [] => true
  | e :: t' =>
      if tested_failure e then negb (existsb is_driver_call t')
      else stops_at_tested_failure t'
  end.

(** The messages printed on the console. *)
Definition console_line (e : Event) : list string :=
  match e with
  | Evxil_printf msg => [msg]
  | _ => []
  end.
Definition console (t : list Event) : list string := flat_map console_line t.

(** The arguments each initialization call is given (and, for the I2C bus,
    the value it leaves in [iic_id]). *)
Inductive InitArgs :=
| ArgsGpio (DeviceId : Z)
| ArgsIic (DeviceId IntrId iic_id : Z)
| ArgsCamera (iic_id mask : Z)
| ArgsFrmbufWr (DeviceId IntrId Addr : Z)
| ArgsFrmbufRd (DeviceId IntrId Addr : Z)
| ArgsDemosaic (DeviceId : Z)
| ArgsGammaLut (DeviceId : Z)
| ArgsVprocLookup (DeviceId : Z).

Definition init_arg (e : Event) : list InitArgs :=
  match e with
  | EvXGpio_Initialize _ id _ => [ArgsGpio id]
  | EvIicAxiInit _ id _ intr _ out => [ArgsIic id intr out]
  | Evrpi_cam_init _ iic_id _ mask _ => [ArgsCamera iic_id mask]
  | EvFrmbufWrInit _ id _ intr addr _ => [ArgsFrmbufWr id intr addr]
  | EvFrmbufRdInit _ id _ intr addr _ => [ArgsFrmbufRd id intr addr]
  | EvXV_demosaic_Initialize _ id _ => [ArgsDemosaic id]
  | EvXV_gamma_lut_Initialize _ id _ => [ArgsGammaLut id]
  | EvXVprocSs_LookupConfig id _ => [ArgsVprocLookup id]
  | _ => []
  end.
Definition init_args (t : list Event) : list InitArgs := flat_map init_arg t.

(** The calls made on the video processing subsystem. *)
Inductive VprocCall :=
| VpLookupConfig (found : option XVprocSs_Config)
| VpLogReset
| VpCfgInitialize (c : XVprocSs_Config) (EffectiveAddr Status : Z)
| VpSetVidStreamIn
| VpSetVidStreamOut
| VpSetSubsystemConfig.

Definition vproc_call (e : Event) : list VprocCall :=
  match e with
  | EvXVprocSs_LookupConfig _ found => [VpLookupConfig found]
  | EvXVprocSs_LogReset _ => [VpLogReset]
  | EvXVprocSs_CfgInitialize _ c addr s => [VpCfgInitialize c addr s]
  | EvXVprocSs_SetVidStreamIn _ _ => [VpSetVidStreamIn]
  | EvXVprocSs_SetVidStreamOut _ _ => [VpSetVidStreamOut]
  | EvXVprocSs_SetSubsystemConfig _ _ => [VpSetSubsystemConfig]
  | _ => []
  end.
Definition vproc_calls (t : list Event) : list VprocCall := flat_map vproc_call t.

(** The stream descriptions, each with the instance it is handed to. *)
Definition stream_call (e : Event)
    : list (XVprocSs * XVidC_VideoStream XVidC_VideoTiming) :=
  match e with
  | EvXVprocSs_SetVidStreamIn v s | EvXVprocSs_SetVidStreamOut v s => [(v, s)]
  | _ => []
  end.
Definition stream_calls (t : list Event) := flat_map stream_call t.

(** The calls and register writes that program the gamma LUT core. *)
Inductive GammaCall :=
| GmInitialize (Status : Z)
| GmWidth (v : Z)
| GmHeight (v : Z)
| GmVideoFormat (v : Z)
| GmOut16 (w : Z * Z)
| GmStart (base : Z)
| GmEnableAutoRestart.

Definition gamma_call (e : Event) : list GammaCall :=
  match e with
  | EvXV_gamma_lut_Initialize _ _ s => [GmInitialize s]
  | EvXV_gamma_lut_Set_HwReg_width _ v => [GmWidth v]
  | EvXV_gamma_lut_Set_HwReg_height _ v => [GmHeight v]
  | EvXV_gamma_lut_Set_HwReg_video_format _ v => [GmVideoFormat v]
  | EvXil_Out16 a v => [GmOut16 (a, v)]
  | EvXV_gamma_lut_Start l => [GmStart (GammaLut_Config_BaseAddress l)]
  | EvXV_gamma_lut_EnableAutoRestart _ => [GmEnableAutoRestart]
  | _ => []
  end.
Definition gamma_calls (t : list Event) : list GammaCall := flat_map gamma_call t.

(** The calls that program the demosaic core. *)
Inductive DemosaicCall :=
| DmInitialize (Status : Z)
| DmWidth
| DmHeight
| DmBayerPhase
| DmEnableAutoRestart
| DmStart.

Definition demosaic_call (e : Event) : list DemosaicCall :=
  match e with
  | EvXV_demosaic_Initialize _ _ s => [DmInitialize s]
  | EvXV_demosaic_Set_HwReg_width _ _ => [DmWidth]
  | EvXV_demosaic_Set_HwReg_height _ _ => [DmHeight]
  | EvXV_demosaic_Set_HwReg_bayer_phase _ _ => [DmBayerPhase]
  | EvXV_demosaic_EnableAutoRestart _ => [DmEnableAutoRestart]
  | EvXV_demosaic_Start _ => [DmStart]
  | _ => []
  end.
Definition demosaic_calls (t : list Event) : list DemosaicCall :=
  flat_map demosaic_call t.

(** The base address of the gamma LUT instance at each start of the core. *)
Definition gamma_base (e : Event) : list Z :=
  match e with
  | EvXV_gamma_lut_Start l => [GammaLut_Config_BaseAddress l]
  | _ => []
  end.
Definition gamma_bases (t : list Event) : list Z := flat_map gamma_base t.

(** The camera initialization reported something else than [XST_FAILURE]. *)
Definition camera_passed (e : Event) : bool :=
  match e with
  | Evrpi_cam_init _ _ _ _ s => negb (s =? XST_FAILURE)
  | _ => false
  end.

(** The GPIO register writes: channel and word. *)
Inductive GpioWrite :=
| GpioDirection (Channel DirectionMask : Z)
| GpioData (Channel Data : Z).

Definition gpio_write (e : Event) : list GpioWrite :=
  match e with
  | EvXGpio_SetDataDirection _ ch w => [GpioDirection ch w]
  | EvXGpio_DiscreteWrite _ ch d => [GpioData ch d]
  | _ => []
  end.
Definition gpio_writes (t : list Event) : list GpioWrite := flat_map gpio_write t.

End Pipe.

Arguments rd {drv A} r p.
Arguments wr {drv A} r v p.

(** ** A simulated board

    Concrete drivers to run the two functions on: every status is taken from
    a plan, so that a run with any chosen failure can be evaluated. *)
Module Sim.

Record Plan := {
  st_gpio : Z;
  st_iic : Z;
  st_camera : Z;
  st_frmbuf_wr : Z;
  st_frmbuf_rd : Z;
  st_demosaic : Z;
  st_gamma : Z;
  vproc_found : bool;
  st_vproc : Z;
  st_subsystem : Z;
  st_cam_config : Z;
  st_frmbuf_start : Z
}.

Definition xil : XilTypes :=
  {| XST_SUCCESS := 0;
     XST_FAILURE := 1;
     TRUE := 1;
     FALSE := 0;
     UINTPTR_BITS := 64;
     XST_SUCCESS_neq_XST_FAILURE := ltac:(discriminate);
     TRUE_neq_FALSE := ltac:(discriminate) |}.

(** Floating point stood in for by 16.16 fixed point; [pow] only knows the
    exponent one. *)
Definition cmath : CMath :=
  {| double := Z;
     float := Z;
     to_double := fun z => z * 65536;
     to_float := fun z => z;
     float_to_double := fun f => f * 65536;
     ddiv := fun a b => if b =? 0 then 0 else a * 65536 / b;
     dmul := fun a b => a * b / 65536;
     pow := fun x _ => x;
     double_to_u16 := fun d => (d / 65536) mod 2 ^ 16;
     double_to_u16_range := fun d => Z.mod_pos_bound (d / 65536) (2 ^ 16) eq_refl |}.

Definition cfg : @Config cmath :=
  {| VMODE_WIDTH := 1920;
     VMODE_HEIGHT := 1080;
     VMODE_FRAMERATE := 30;
     COLOR_FORMAT_ID := 0;
     VPROC_WIDTH_OUT := 1920;
     VPROC_HEIGHT_OUT := 1080;
     VPROC_FRAMERATE_OUT := 60;
     GAMMA_TABLE_SIZE := 1024;
     GAMMA := 65536 : @double cmath;
     GPIO_CAM_IO0_MASK := 1;
     GPIO_CAM_IO1_MASK := 2;
     GAMMA_TABLE_SIZE_range :=
       ltac:(split; [ intro H; discriminate H | reflexivity ]) |}.

(** Instances hold: the GPIO its direction and data registers, the I2C bus
    its device id, the interrupt controller the connected interrupt ids, the
    camera its Bayer phase, the frame buffer the number of calls made on it,
    the demosaic core and the gamma LUT their base address, the video
    processing subsystem its colour depth and pixels per clock. *)
Definition drivers (p : Plan) : Drivers :=
  {| XGpio := Z * Z;
     XIic := Z;
     XScuGic := list Z;
     RpiCamera := Z;
     FrameBuffer := Z;
     XV_demosaic := Z;
     XV_gamma_lut := Z;
     XVprocSs := Z * Z;
     XVprocSs_Config := Z;
     XVidC_VideoTiming := Z * Z;
     GammaLut_Config_BaseAddress := fun l => l;
     Vproc_Config_ColorDepth := fun v => fst v;
     Vproc_Config_PixPerClock := fun v => snd v;
     VprocSsConfig_BaseAddress := fun c => c;
     XGpio_Initialize := fun _ _ => (st_gpio p, (0xFFFFFFFF, 0));
     XGpio_SetDataDirection := fun g _ mask => (mask, snd g);
     XGpio_DiscreteWrite := fun g _ data => (fst g, data);
     IicAxiInit := fun _ id intc intr => (st_iic p, id, intr :: intc, id);
     rpi_cam_init := fun _ iic_id g _ => (st_camera p, 3, g);
     rpi_cam_bayer_phase := fun c => c;
     rpi_cam_config := fun c => (st_cam_config p, c);
     FrmbufWrInit := fun b _ intc intr _ => (st_frmbuf_wr p, b + 1, intr :: intc);
     FrmbufRdInit := fun b _ intc intr _ => (st_frmbuf_rd p, b + 1, intr :: intc);
     FrmbufStart := fun b => (st_frmbuf_start p, b + 1);
     XV_demosaic_Initialize := fun _ _ => (st_demosaic p, 0xA0020000);
     XV_demosaic_Set_HwReg_width := fun d _ => d;
     XV_demosaic_Set_HwReg_height := fun d _ => d;
     XV_demosaic_Set_HwReg_bayer_phase := fun d _ => d;
     XV_demosaic_EnableAutoRestart := fun d => d;
     XV_demosaic_Start := fun d => d;
     XV_gamma_lut_Initialize := fun _ _ => (st_gamma p, 0xA0030000);
     XV_gamma_lut_Set_HwReg_width := fun l _ => l;
     XV_gamma_lut_Set_HwReg_height := fun l _ => l;
     XV_gamma_lut_Set_HwReg_video_format := fun l _ => l;
     XV_gamma_lut_Start := fun l => l;
     XV_gamma_lut_EnableAutoRestart := fun l => l;
     XVprocSs_LookupConfig := fun _ => if vproc_found p then Some 0xA0040000 else None;
     XVprocSs_LogReset := fun v => v;
     XVprocSs_CfgInitialize := fun _ _ _ => (st_vproc p, (8, 2));
     XVprocSs_SetVidStreamIn := fun v _ => v;
     XVprocSs_SetVidStreamOut := fun v _ => v;
     XVprocSs_SetSubsystemConfig := fun v => (st_subsystem p, v);
     XVidC_GetVideoModeId := fun w h r i => ((w * 65536 + h) * 256 + r) * 2 + i;
     XVidC_GetTimingInfo := fun id => (id / 2 / 256 / 65536, (id / 2 / 256) mod 65536);
     XVidC_GetFrameRate := fun id => (id / 2) mod 256;
     XVidC_IsInterlaced := fun id => id mod 2 |}.

(** Every driver succeeds. *)
Definition all_ok : Plan :=
  {| st_gpio := 0; st_iic := 0; st_camera := 0; st_frmbuf_wr := 0;
     st_frmbuf_rd := 0; st_demosaic := 0; st_gamma := 0; vproc_found := true;
     st_vproc := 0; st_subsystem := 0; st_cam_config := 0;
     st_frmbuf_start := 0 |}.

(** One driver reports [XST_FAILURE], the others succeed. *)
Definition gpio_fails : Plan :=
  {| st_gpio := 1; st_iic := 0; st_camera := 0; st_frmbuf_wr := 0;
     st_frmbuf_rd := 0; st_demosaic := 0; st_gamma := 0; vproc_found := true;
     st_vproc := 0; st_subsystem := 0; st_cam_config := 0;
     st_frmbuf_start := 0 |}.
Definition camera_fails : Plan :=
  {| st_gpio := 0; st_iic := 0; st_camera := 1; st_frmbuf_wr := 0;
     st_frmbuf_rd := 0; st_demosaic := 0; st_gamma := 0; vproc_found := true;
     st_vproc := 0; st_subsystem := 0; st_cam_config := 0;
     st_frmbuf_start := 0 |}.
Definition demosaic_fails : Plan :=
  {| st_gpio := 0; st_iic := 0; st_camera := 0; st_frmbuf_wr := 0;
     st_frmbuf_rd := 0; st_demosaic := 1; st_gamma := 0; vproc_found := true;
     st_vproc := 0; st_subsystem := 0; st_cam_config := 0;
     st_frmbuf_start := 0 |}.
Definition subsystem_fails : Plan :=
  {| st_gpio := 0; st_iic := 0; st_camera := 0; st_frmbuf_wr := 0;
     st_frmbuf_rd := 0; st_demosaic := 0; st_gamma := 0; vproc_found := true;
     st_vproc := 0; st_subsystem := 1; st_cam_config := 0;
     st_frmbuf_start := 0 |}.
Definition cam_config_fails : Plan :=
  {| st_gpio := 0; st_iic := 0; st_camera := 0; st_frmbuf_wr := 0;
     st_frmbuf_rd := 0; st_demosaic := 0; st_gamma := 0; vproc_found := true;
     st_vproc := 0; st_subsystem := 0; st_cam_config := 1;
     st_frmbuf_start := 0 |}.

(** A pipe nothing has been done to, with the flag at [flag]. *)
Definition fresh_pipe (p : Plan) (flag : Z) : @VideoPipe (drivers p) :=
  @Build_VideoPipe (drivers p) (0, 0) 0 0 0 0 0 (0, 0) flag.
Definition fresh (p : Plan) (flag : Z) : @Mem (drivers p) :=
  @Build_Mem (drivers p) (fresh_pipe p flag) [].

Definition devids : VideoPipeDevIds :=
  {| devids_Gpio := 0;
     devids_Iic := 1;
     devids_IicIntr := 121;
     devids_FrmbufWr := 2;
     devids_FrmbufWrIntr := 122;
     devids_FrmbufRd := 3;
     devids_FrmbufRdIntr := 123;
     devids_FrmbufBufrBaseAddr := 0x10000000;
     devids_Demosaic := 4;
     devids_GammaLut := 5;
     devids_Vproc := 6 |}.

(** The camera initialization reports a status that is neither
    [XST_SUCCESS] nor [XST_FAILURE]. *)
Definition camera_other_status : Plan :=
  {| st_gpio := 0; st_iic := 0; st_camera := 2; st_frmbuf_wr := 0;
     st_frmbuf_rd := 0; st_demosaic := 0; st_gamma := 0; vproc_found := true;
     st_vproc := 0; st_subsystem := 0; st_cam_config := 0;
     st_frmbuf_start := 0 |}.
Definition frmbuf_wr_fails : Plan :=
  {| st_gpio := 0; st_iic := 0; st_camera := 0; st_frmbuf_wr := 1;
     st_frmbuf_rd := 0; st_demosaic := 0; st_gamma := 0; vproc_found := true;
     st_vproc := 0; st_subsystem := 0; st_cam_config := 0;
     st_frmbuf_start := 0 |}.

End Sim.

(** The two functions on the simulated board. *)
Notation "'sim_pipe_init' p" :=
  (@pipe_init Sim.xil Sim.cmath Sim.cfg (Sim.drivers p) Sim.devids)
  (at level 10, p at level 9).
Notation "'sim_pipe_start_camera' p" :=
  (@pipe_start_camera (Sim.drivers p))
  (at level 10, p at level 9).

(** * Properties *)

Section PipeFacts.

Context {xil : XilTypes} {cm : CMath} {cfg : Config} {drv : Drivers}.

(** ** Rules to walk through a function body one statement at a time *)

Lemma wp_run (body : M Z) (m : Mem) (P : Z -> Mem -> list Event -> Prop) :
  wp body m (fun f m' t => P (status_of f) m' t) ->
  P (result body m) (final body m) (trace body m).
Proof.
  unfold wp, result, final, trace, run.
  destruct (body m) as [[f m'] t]. exact (fun H => H).
Qed.

Lemma wp_bind {A B} (c : M A) (k : A -> M B) (m : Mem) Q :
  wp c m (fun f m1 t1 =>
            match f with
            | Next a => wp (k a) m1 (fun f2 m2 t2 => Q f2 m2 (t1 ++ t2))
            | Return v => Q (Return v) m1 t1
            end) ->
  wp (bind c k) m Q.
Proof.
  unfold wp, bind. destruct (c m) as [[[a|v] m1] t1]; cbn.
  - destruct (k a m1) as [[f2 m2] t2]. exact (fun H => H).
  - exact (fun H => H).
Qed.

(** A statement that runs to a known flow, memory and trace. *)
Lemma wp_value {A} (c : M A) (m : Mem) Q f m' t :
  c m = (f, m', t) -> Q f m' t -> wp c m Q.
Proof. unfold wp. intros ->. exact (fun H => H). Qed.

Lemma wp_when_ne (a b : Z) (body : M unit) (m : Mem) Q :
  ((a =? b) = false -> wp body m Q) ->
  ((a =? b) = true -> Q (Next tt) m []) ->
  wp (when (negb (a =? b)) body) m Q.
Proof.
  intros Hne Heq. destruct (a =? b); cbn [negb when].
  - apply Heq. reflexivity.
  - apply Hne. reflexivity.
Qed.

Lemma wp_when_eq (a b : Z) (body : M unit) (m : Mem) Q :
  ((a =? b) = true -> wp body m Q) ->
  ((a =? b) = false -> Q (Next tt) m []) ->
  wp (when (a =? b) body) m Q.
Proof.
  intros Heq Hne. destruct (a =? b); cbn [when].
  - apply Heq. reflexivity.
  - apply Hne. reflexivity.
Qed.

Lemma gamma_loop_run (n : nat) (i : Z) (m : Mem) :
  gamma_loop n i m =
  (Next tt, m, gamma_trace (GammaLut_Config_BaseAddress (GammaLut (m_pipe m))) n i).
Proof.
  revert i; induction n as [|n IH]; intros i; [reflexivity|].
  cbn [gamma_loop gamma_trace].
  unfold bind at 1. cbn. rewrite IH. reflexivity.
Qed.

Lemma wp_gamma_loop (n : nat) (i : Z) (m : Mem) Q :
  Q (Next tt) m (gamma_trace (GammaLut_Config_BaseAddress (GammaLut (m_pipe m))) n i) ->
  wp (gamma_loop n i) m Q.
Proof. apply wp_value, gamma_loop_run. Qed.

Ltac wp_step :=
  lazymatch goal with
  | |- wp (bind _ _) _ _ => apply wp_bind
  | |- wp (when (negb (_ =? _)) _) _ _ => apply wp_when_ne; intro
  | |- wp (when (_ =? _) _) _ _ => apply wp_when_eq; intro
  | |- wp (gamma_loop _ _) _ _ => apply wp_gamma_loop
  | |- wp (match ?o with Some _ => _ | None => _ end) _ _ => destruct o eqn:?
  | |- wp _ _ _ => eapply wp_value; [ simpl; reflexivity | ]
  end;
  cbv beta iota zeta;
  cbn [rd wr pGpio pIic pCamera pFrmbuf pDemosaic pGammaLut pVproc
       m_pipe m_intc Gpio Iic Camera Frmbuf Demosaic GammaLut Vproc IsConnected
       set_Gpio set_Iic set_Camera set_Frmbuf set_Demosaic set_GammaLut set_Vproc
       set_IsConnected fst snd].

Ltac wp_exec := repeat wp_step; cbn [app status_of].

(** Start from a memory given field by field. *)
Ltac wp_start P :=
  match goal with
  | m : Mem |- _ =>
      apply (wp_run _ m P);
      destruct m as [[? ? ? ? ? ? ? ?] ?]
  end.

(** ** Views of a trace *)

Lemma flat_map_gamma_trace {B} (f : Event -> list B) (base : Z) (n : nat) (i : Z) :
  (forall a v, f (EvXil_Out16 a v) = []) ->
  flat_map f (gamma_trace base n i) = [].
Proof.
  intros Hf. revert i. induction n as [|n IH]; intros i; [reflexivity|].
  cbn [gamma_trace gamma_writes app flat_map]. rewrite !Hf, IH. reflexivity.
Qed.

Lemma existsb_gamma_trace (f : Event -> bool) (base : Z) (n : nat) (i : Z) :
  (forall a v, f (EvXil_Out16 a v) = false) ->
  existsb f (gamma_trace base n i) = false.
Proof.
  intros Hf. revert i. induction n as [|n IH]; intros i; [reflexivity|].
  cbn [gamma_trace gamma_writes app existsb]. rewrite !Hf, IH. reflexivity.
Qed.

(** Use the outcomes of the tests passed on the way. *)
Ltac use_tests :=
  repeat match goal with
         | H : (?a =? ?b) = _ |- context [?a =? ?b] => rewrite H
         end.

(** Evaluate the search for an event that satisfies [p] in the trace of a
    finished run. *)
Ltac eval_existsb p :=
  cbn [existsb p];
  rewrite ?existsb_app, ?existsb_gamma_trace by reflexivity;
  cbn [existsb p];
  use_tests; cbn [negb orb andb];
  rewrite ?orb_true_r, ?orb_false_r.

(** Evaluate the view [fs], made of [f] event by event, of the trace of a
    finished run. *)
Ltac eval_view f fs :=
  cbn [fs f flat_map app];
  rewrite ?flat_map_app;
  rewrite ?flat_map_gamma_trace by reflexivity;
  cbn [fs f flat_map app].

(** ** The result of [pipe_init] *)

(** For every input, [pipe_init] returns [XST_SUCCESS] or [XST_FAILURE],
    never a status code of a driver: [XST_FAILURE] exactly when one of the
    failures it tests for occurred, whatever the code the driver reported,
    and [XST_SUCCESS] otherwise. *)
Lemma pipe_init_result_cases (devids : VideoPipeDevIds) (m : Mem) :
  (result (pipe_init devids) m = XST_SUCCESS \/
   result (pipe_init devids) m = XST_FAILURE) /\
  result (pipe_init devids) m =
    if existsb tested_failure (trace (pipe_init devids) m)
    then XST_FAILURE else XST_SUCCESS.
Proof.
  wp_start (fun r (_ : Mem) t =>
    (r = XST_SUCCESS \/ r = XST_FAILURE) /\
    r = if existsb tested_failure t then XST_FAILURE else XST_SUCCESS).
  unfold pipe_init. wp_exec.
  all: eval_existsb @tested_failure; auto.
Qed.

(** ** The order of the initialization steps *)

Lemma failure_is_not_success (a : Z) :
  (a =? XST_FAILURE) = true -> (a =? XST_SUCCESS) = false.
Proof.
  intros H. apply Z.eqb_eq in H. subst a. apply Z.eqb_neq.
  intros E. apply XST_SUCCESS_neq_XST_FAILURE. symmetry. exact E.
Qed.

(** C3. [pipe_init] makes its initialization calls in the order GPIO, I2C,
    camera, frame buffer write, frame buffer read, demosaic, gamma LUT, video
    processing subsystem: the calls of any run are a beginning of that list,
    and when no step reports a failure they are the whole list and the result
    is [XST_SUCCESS]. *)
Theorem pipe_init_steps_in_order (devids : VideoPipeDevIds) (m : Mem) :
  (exists rest,
     init_steps (trace (pipe_init devids) m) ++ rest = pipe_init_order) /\
  (existsb reports_failure (trace (pipe_init devids) m) = false ->
   init_steps (trace (pipe_init devids) m) = pipe_init_order /\
   result (pipe_init devids) m = XST_SUCCESS).
Proof.
  wp_start (fun r (_ : Mem) t =>
    (exists rest, init_steps t ++ rest = pipe_init_order) /\
    (existsb reports_failure t = false ->
     init_steps t = pipe_init_order /\ r = XST_SUCCESS)).
  unfold pipe_init. wp_exec.
  all: split; [ eval_view @init_step @init_steps; eexists; reflexivity | ].
  all: repeat match goal with
              | H : (_ =? XST_FAILURE) = true |- _ =>
                  apply failure_is_not_success in H
              end.
  all: eval_existsb @reports_failure; try discriminate.
  intros _. eval_view @init_step @init_steps. split; reflexivity.
Qed.

(** C4. [pipe_start_camera] calls [rpi_cam_config] on the pipe's camera and
    then [FrmbufStart] on the pipe's frame buffer, and nothing else, whatever
    pipe it is given. *)
Theorem pipe_start_camera_calls (m : Mem) :
  trace pipe_start_camera m =
  [ Evrpi_cam_config (Camera (m_pipe m))
      (fst (rpi_cam_config (Camera (m_pipe m))));
    EvFrmbufStart (Frmbuf (m_pipe m))
      (fst (FrmbufStart (Frmbuf (m_pipe m)))) ].
Proof.
  wp_start (fun (_ : Z) (_ : Mem) t =>
    t = [ Evrpi_cam_config (Camera (m_pipe m))
            (fst (rpi_cam_config (Camera (m_pipe m))));
          EvFrmbufStart (Frmbuf (m_pipe m))
            (fst (FrmbufStart (Frmbuf (m_pipe m)))) ]).
  unfold pipe_start_camera. wp_exec. reflexivity.
Qed.

(** ** Power before initialization *)

Lemma not_in_when_none (sel : Event -> bool) (t pre post : list Event) (e : Event) :
  existsb sel t = false -> t = pre ++ e :: post -> sel e = true -> False.
Proof.
  intros Hnone -> He. rewrite existsb_app in Hnone. cbn [existsb] in Hnone.
  rewrite He, orb_true_r in Hnone. discriminate.
Qed.

Lemma found_after_three (sel : Event -> bool) (e1 e2 e3 : Event)
    (rest pre post : list Event) (e : Event) :
  e1 :: e2 :: e3 :: rest = pre ++ e :: post ->
  sel e = true -> sel e1 = false -> sel e2 = false -> sel e3 = false ->
  exists c, pre = e1 :: e2 :: e3 :: c.
Proof.
  intros Heq He H1 H2 H3.
  destruct pre as [|x1 [|x2 [|x3 c]]]; cbn [app] in Heq; inversion Heq; subst.
  - rewrite He in H1. discriminate.
  - rewrite He in H2. discriminate.
  - rewrite He in H3. discriminate.
  - exists c. reflexivity.
Qed.

(** C9. In any run of [pipe_init], before each call of [IicAxiInit] and of
    [rpi_cam_init] the GPIO direction has been written with the complement
    of the two camera masks and then the GPIO data with the CAM_IO0 mask. *)
Theorem camera_powered_before_init (devids : VideoPipeDevIds) (m : Mem)
    (pre post : list Event) (e : Event) :
  trace (pipe_init devids) m = pre ++ e :: post ->
  is_iic_or_camera_init e = true ->
  exists g1 g2 a b c,
    pre = a ++ EvXGpio_SetDataDirection g1 1
                 (u32 (Z.lnot (GPIO_CAM_IO0_MASK + GPIO_CAM_IO1_MASK)))
            :: b ++ EvXGpio_DiscreteWrite g2 1 (u32 GPIO_CAM_IO0_MASK) :: c.
Proof.
  revert pre post e.
  wp_start (fun (_ : Z) (_ : Mem) t =>
    forall pre post e,
      t = pre ++ e :: post ->
      is_iic_or_camera_init e = true ->
      exists g1 g2 a b c,
        pre = a ++ EvXGpio_SetDataDirection g1 1
                     (u32 (Z.lnot (GPIO_CAM_IO0_MASK + GPIO_CAM_IO1_MASK)))
                :: b ++ EvXGpio_DiscreteWrite g2 1 (u32 GPIO_CAM_IO0_MASK) :: c).
  unfold pipe_init. wp_exec.
  all: intros pre post e Ht He.
  all: try (destruct (found_after_three _ _ _ _ _ _ _ _ Ht He
                        eq_refl eq_refl eq_refl) as [c ->];
            eexists _, _, [_], [], c; reflexivity).
  exfalso. eapply not_in_when_none; [ | exact Ht | exact He ]. reflexivity.
Qed.

(** What the two GPIO writes mean bit by bit, for masks that do not overlap:
    the direction word has a zero (output) exactly at the bits of the two
    camera masks. *)
Lemma direction_word_bits (n : Z) :
  Z.land GPIO_CAM_IO0_MASK GPIO_CAM_IO1_MASK = 0 ->
  0 <= n < 32 ->
  Z.testbit (u32 (Z.lnot (GPIO_CAM_IO0_MASK + GPIO_CAM_IO1_MASK))) n =
  negb (Z.testbit GPIO_CAM_IO0_MASK n || Z.testbit GPIO_CAM_IO1_MASK n).
Proof.
  intros Hdisj Hn. unfold u32, wrap.
  rewrite Z.mod_pow2_bits_low by lia.
  rewrite Z.lnot_spec by lia.
  rewrite (Z.add_nocarry_lxor _ _ Hdisj), Z.lxor_spec.
  assert (Hn0 := Z.land_spec GPIO_CAM_IO0_MASK GPIO_CAM_IO1_MASK n).
  rewrite Hdisj, Z.bits_0 in Hn0.
  destruct (Z.testbit GPIO_CAM_IO0_MASK n), (Z.testbit GPIO_CAM_IO1_MASK n);
    cbn in *; congruence.
Qed.

(** ** The stream parameters *)

Lemma failure_neq_success : XST_FAILURE <> XST_SUCCESS.
Proof.
  intros E. apply XST_SUCCESS_neq_XST_FAILURE. symmetry. exact E.
Qed.

(** C5. [pipe_init] hands the video processing subsystem fixed stream
    parameters.  Whenever none of the failures it tests for is reported, it
    returns [XST_SUCCESS] and has set first the input stream, [VMODE_WIDTH] x
    [VMODE_HEIGHT] at [VMODE_FRAMERATE], and then the output stream,
    [VPROC_WIDTH_OUT] x [VPROC_HEIGHT_OUT] at [VPROC_FRAMERATE_OUT], both
    looked up as non-interlaced and with [COLOR_FORMAT_ID], and no other
    stream.  In every run, the streams set are these two in this order when
    the result is [XST_SUCCESS], and none otherwise. *)
Theorem pipe_init_stream_parameters (devids : VideoPipeDevIds) (m : Mem) :
  (existsb tested_failure (trace (pipe_init devids) m) = false ->
   result (pipe_init devids) m = XST_SUCCESS /\
   exists depth_in ppc_in depth_out ppc_out,
     stream_cfgs (trace (pipe_init devids) m) =
     [ StreamIn (fixed_stream VMODE_WIDTH VMODE_HEIGHT VMODE_FRAMERATE
                              depth_in ppc_in);
       StreamOut (fixed_stream VPROC_WIDTH_OUT VPROC_HEIGHT_OUT
                               VPROC_FRAMERATE_OUT depth_out ppc_out) ]) /\
  ((result (pipe_init devids) m <> XST_SUCCESS /\
    stream_cfgs (trace (pipe_init devids) m) = []) \/
   (result (pipe_init devids) m = XST_SUCCESS /\
    exists depth_in ppc_in depth_out ppc_out,
      stream_cfgs (trace (pipe_init devids) m) =
      [ StreamIn (fixed_stream VMODE_WIDTH VMODE_HEIGHT VMODE_FRAMERATE
                               depth_in ppc_in);
        StreamOut (fixed_stream VPROC_WIDTH_OUT VPROC_HEIGHT_OUT
                                VPROC_FRAMERATE_OUT depth_out ppc_out) ])).
Proof.
  wp_start (fun r (_ : Mem) t =>
    (existsb tested_failure t = false ->
     r = XST_SUCCESS /\
     exists depth_in ppc_in depth_out ppc_out,
       stream_cfgs t =
       [ StreamIn (fixed_stream VMODE_WIDTH VMODE_HEIGHT VMODE_FRAMERATE
                                depth_in ppc_in);
         StreamOut (fixed_stream VPROC_WIDTH_OUT VPROC_HEIGHT_OUT
                                 VPROC_FRAMERATE_OUT depth_out ppc_out) ]) /\
    ((r <> XST_SUCCESS /\ stream_cfgs t = []) \/
     (r = XST_SUCCESS /\
      exists depth_in ppc_in depth_out ppc_out,
        stream_cfgs t =
        [ StreamIn (fixed_stream VMODE_WIDTH VMODE_HEIGHT VMODE_FRAMERATE
                                 depth_in ppc_in);
          StreamOut (fixed_stream VPROC_WIDTH_OUT VPROC_HEIGHT_OUT
                                  VPROC_FRAMERATE_OUT depth_out ppc_out) ]))).
  unfold pipe_init. wp_exec.
  all: split;
    [ eval_existsb @tested_failure;
      first [ discriminate
            | intros _; eval_view @stream_cfg @stream_cfgs;
              split; [ reflexivity | eexists _, _, _, _; reflexivity ] ]
    | eval_view @stream_cfg @stream_cfgs;
      first [ left; split; [ exact failure_neq_success | reflexivity ]
            | right; split; [ reflexivity | eexists _, _, _, _; reflexivity ] ] ].
Qed.

(** ** Frame geometry *)

(** Find an event in the trace of a finished run. *)
Ltac find_event :=
  cbn [In];
  repeat first [ left; reflexivity | apply in_or_app; right; cbn [In] | right ].

(** C10. The stages get the same frame geometry.  Whenever none of the
    failures [pipe_init] tests for is reported, it returns [XST_SUCCESS] and
    has written the demosaic width and height registers and the gamma LUT
    width and height registers with [VMODE_WIDTH] and [VMODE_HEIGHT], set the
    input stream of [VMODE_WIDTH] x [VMODE_HEIGHT], and written the demosaic
    Bayer phase register with what [rpi_cam_bayer_phase] reports for the
    camera as [rpi_cam_init] left it.  In every run, also one that fails,
    what is written of these registers is a beginning of the same list with
    the same values. *)
Theorem pipe_init_consistent_geometry (devids : VideoPipeDevIds) (m : Mem) :
  let t := trace (pipe_init devids) m in
  let r := result (pipe_init devids) m in
  let camera := Camera (m_pipe (final (pipe_init devids) m)) in
  let demosaic :=
    [ (DemosaicWidth, VMODE_WIDTH); (DemosaicHeight, VMODE_HEIGHT);
      (DemosaicBayerPhase, rpi_cam_bayer_phase camera) ] in
  let gamma := [ (GammaWidth, VMODE_WIDTH); (GammaHeight, VMODE_HEIGHT) ] in
  let initialized :=
    exists c iic_id g mask s,
      In (Evrpi_cam_init c iic_id g mask s) t /\
      camera = snd (fst (rpi_cam_init c iic_id g mask)) in
  (existsb tested_failure t = false ->
   r = XST_SUCCESS /\ initialized /\
   geom_writes t = demosaic ++ gamma /\
   exists depth ppc s,
     stream_cfgs t =
     [ StreamIn (fixed_stream VMODE_WIDTH VMODE_HEIGHT VMODE_FRAMERATE depth ppc);
       StreamOut s ]) /\
  ((r <> XST_SUCCESS /\ stream_cfgs t = [] /\ geom_writes t = []) \/
   (r <> XST_SUCCESS /\ stream_cfgs t = [] /\ initialized /\
    (geom_writes t = demosaic \/ geom_writes t = demosaic ++ gamma)) \/
   (r = XST_SUCCESS /\ initialized /\
    geom_writes t = demosaic ++ gamma /\
    exists depth ppc s,
      stream_cfgs t =
      [ StreamIn (fixed_stream VMODE_WIDTH VMODE_HEIGHT VMODE_FRAMERATE depth ppc);
        StreamOut s ])).
Proof.
  wp_start (fun r m' t =>
    let camera := Camera (m_pipe m') in
    let demosaic :=
      [ (DemosaicWidth, VMODE_WIDTH); (DemosaicHeight, VMODE_HEIGHT);
        (DemosaicBayerPhase, rpi_cam_bayer_phase camera) ] in
    let gamma := [ (GammaWidth, VMODE_WIDTH); (GammaHeight, VMODE_HEIGHT) ] in
    let initialized :=
      exists c iic_id g mask s,
        In (Evrpi_cam_init c iic_id g mask s) t /\
        camera = snd (fst (rpi_cam_init c iic_id g mask)) in
    (existsb tested_failure t = false ->
     r = XST_SUCCESS /\ initialized /\
     geom_writes t = demosaic ++ gamma /\
     exists depth ppc s,
       stream_cfgs t =
       [ StreamIn (fixed_stream VMODE_WIDTH VMODE_HEIGHT VMODE_FRAMERATE depth ppc);
         StreamOut s ]) /\
    ((r <> XST_SUCCESS /\ stream_cfgs t = [] /\ geom_writes t = []) \/
     (r <> XST_SUCCESS /\ stream_cfgs t = [] /\ initialized /\
      (geom_writes t = demosaic \/ geom_writes t = demosaic ++ gamma)) \/
     (r = XST_SUCCESS /\ initialized /\
      geom_writes t = demosaic ++ gamma /\
      exists depth ppc s,
        stream_cfgs t =
        [ StreamIn (fixed_stream VMODE_WIDTH VMODE_HEIGHT VMODE_FRAMERATE depth ppc);
          StreamOut s ]))).
  unfold pipe_init. wp_exec.
  all: cbv zeta;
    cbn [m_pipe Camera set_Gpio set_Iic set_Camera set_Frmbuf set_Demosaic
         set_GammaLut set_Vproc set_IsConnected].
  all: split.
  (* with no tested failure: the whole configuration *)
  all: try (eval_existsb @tested_failure;
            first [ discriminate
                  | intros _;
                    eval_view @stream_cfg @stream_cfgs;
                    eval_view @geom_write @geom_writes;
                    split; [ reflexivity | ];
                    split; [ eexists _, _, _, _, _;
                             split; [ find_event | reflexivity ] | ];
                    split; [ reflexivity | ];
                    eexists _, _, _; reflexivity ]).
  (* every run *)
  all: eval_view @stream_cfg @stream_cfgs; eval_view @geom_write @geom_writes.
  all: try solve [ left; repeat split; first [ exact failure_neq_success | reflexivity ] ].
  all: try solve
    [ right; left; split; [ exact failure_neq_success | ];
      split; [ reflexivity | ];
      split; [ eexists _, _, _, _, _; split; [ find_event | reflexivity ] | ];
      first [ left; reflexivity | right; reflexivity ] ].
  right; right. split; [ reflexivity | ].
  split; [ eexists _, _, _, _, _; split; [ find_event | reflexivity ] | ].
  split; [ reflexivity | ].
  eexists _, _, _. reflexivity.
Qed.

(** ** The connected flag *)

Lemma ends_here (suf : list Event) : suf = [] ++ suf.
Proof. reflexivity. Qed.

Lemma ends_cons (e : Event) (t pre suf : list Event) :
  t = pre ++ suf -> e :: t = (e :: pre) ++ suf.
Proof. intros ->. reflexivity. Qed.

Lemma ends_app (l t pre suf : list Event) :
  t = pre ++ suf -> l ++ t = (l ++ pre) ++ suf.
Proof. intros ->. apply app_assoc. Qed.

(** Split the trace of a finished run before its last events. *)
Ltac split_end :=
  repeat first [ apply ends_here | apply ends_cons | apply ends_app ].

Lemma pipe_init_flag (devids : VideoPipeDevIds) (m : Mem) :
  flag_outcome m (result (pipe_init devids) m) (final (pipe_init devids) m)
               (trace (pipe_init devids) m).
Proof.
  wp_start (fun r m' t => flag_outcome m r m' t).
  unfold pipe_init. wp_exec.
  all: unfold flag_outcome;
    cbn [m_pipe IsConnected set_Gpio set_Iic set_Camera set_Frmbuf set_Demosaic
         set_GammaLut set_Vproc set_IsConnected].
  (* the failures that leave the flag alone *)
  all: try solve
    [ right; right; split; [ reflexivity | ]; split; [ reflexivity | ];
      split; [ eval_view @flag_write @flag_writes; reflexivity
             | eval_existsb @camera_failure; reflexivity ] ].
  - (* the camera *)
    right; left. split; [ reflexivity | ]. split; [ reflexivity | ].
    match goal with
    | H : (?s =? XST_FAILURE) = true |- _ =>
        apply Z.eqb_eq in H; rewrite H
    end.
    eexists _, _, _, _, _.
    split; [ split_end | eval_view @flag_write @flag_writes; reflexivity ].
  - (* success *)
    left. split; [ reflexivity | ]. split; [ reflexivity | ].
    eexists.
    split; [ split_end | eval_view @flag_write @flag_writes; reflexivity ].
Qed.

(** ** The gamma curve *)

Lemma out16s_gamma_trace_from (base : Z) (n : nat) (i : Z) :
  0 <= i -> i + Z.of_nat n <= 2 ^ 32 ->
  out16s (gamma_trace base n i) =
  flat_map (lut_entries base) (map (fun k => i + Z.of_nat k) (seq 0 n)).
Proof.
  revert i. induction n as [|n IH]; intros i Hi Hn; [reflexivity|].
  cbn [gamma_trace]. unfold out16s in *. rewrite flat_map_app.
  cbn [seq map flat_map]. rewrite Z.add_0_r. f_equal.
  destruct n as [|n']; [reflexivity|].
  assert (Hu : u32 (i + 1) = i + 1) by (apply Z.mod_small; lia).
  rewrite Hu, IH by lia.
  rewrite <- seq_shift, map_map. f_equal.
  apply map_ext. intros k. lia.
Qed.

Lemma out16s_gamma_trace (base : Z) :
  out16s (gamma_trace base (Z.to_nat GAMMA_TABLE_SIZE) 0) = gamma_table base.
Proof.
  pose proof GAMMA_TABLE_SIZE_range as Hr.
  rewrite out16s_gamma_trace_from by lia. reflexivity.
Qed.

Lemma lut_entries_in_table (base i : Z) :
  0 <= i < GAMMA_TABLE_SIZE -> incl (lut_entries base i) (gamma_table base).
Proof.
  intros Hi e He. unfold gamma_table. apply in_flat_map.
  exists i. split; [ | exact He ].
  apply in_map_iff. exists (Z.to_nat i). split; [ lia | ].
  apply in_seq. lia.
Qed.

Lemma lut_addr_exact (base off i : Z) :
  0 <= i < 2 ^ 31 -> 0 <= base -> 0 <= off ->
  base + off + 2 * i < 2 ^ UINTPTR_BITS ->
  lut_addr base off i = base + off + 2 * i.
Proof.
  intros Hi Hb Ho Hfit. unfold lut_addr, uintptr, u32, wrap.
  rewrite (Z.mod_small (i * 2)) by lia.
  rewrite (Z.mod_small (base + off)) by lia.
  rewrite Z.mod_small by lia. lia.
Qed.

(** C6. When the gamma LUT initialization has reported success, the 16-bit
    writes of [pipe_init] are, for every index [i] below [GAMMA_TABLE_SIZE] in
    turn, the value [pow(i / GAMMA_TABLE_SIZE, GAMMA) * GAMMA_TABLE_SIZE]
    converted to 16 bits, written to all three tables at the C addresses
    [BaseAddress + 0x800 + i*2], [+ 0x1000] and [+ 0x1800] of the gamma LUT
    instance; where neither [i*2] nor the sum overflows, these are the plain
    sums. *)
Theorem gamma_curve_written (devids : VideoPipeDevIds) (m : Mem) :
  existsb gamma_lut_initialized (trace (pipe_init devids) m) = true ->
  exists l,
    In (EvXV_gamma_lut_Start l) (trace (pipe_init devids) m) /\
    let base := GammaLut_Config_BaseAddress l in
    out16s (trace (pipe_init devids) m) = gamma_table base /\
    (forall i, 0 <= i < GAMMA_TABLE_SIZE ->
       incl [ (lut_addr base 0x800 i, gamma_value i);
              (lut_addr base 0x1000 i, gamma_value i);
              (lut_addr base 0x1800 i, gamma_value i) ]
            (out16s (trace (pipe_init devids) m)) /\
       gamma_value i =
         double_to_u16
           (dmul (pow (ddiv (to_double i) (to_double GAMMA_TABLE_SIZE)) GAMMA)
                 (float_to_double (to_float GAMMA_TABLE_SIZE))) /\
       0 <= gamma_value i < 2 ^ 16) /\
    (forall i off,
       0 <= i < GAMMA_TABLE_SIZE -> GAMMA_TABLE_SIZE <= 2 ^ 31 ->
       0 <= base -> 0 <= off -> base + off + 2 * i < 2 ^ UINTPTR_BITS ->
       lut_addr base off i = base + off + 2 * i).
Proof.
  wp_start (fun (_ : Z) (_ : Mem) t =>
    existsb gamma_lut_initialized t = true ->
    exists l,
      In (EvXV_gamma_lut_Start l) t /\
      let base := GammaLut_Config_BaseAddress l in
      out16s t = gamma_table base /\
      (forall i, 0 <= i < GAMMA_TABLE_SIZE ->
         incl [ (lut_addr base 0x800 i, gamma_value i);
                (lut_addr base 0x1000 i, gamma_value i);
                (lut_addr base 0x1800 i, gamma_value i) ]
              (out16s t) /\
         gamma_value i =
           double_to_u16
             (dmul (pow (ddiv (to_double i) (to_double GAMMA_TABLE_SIZE)) GAMMA)
                   (float_to_double (to_float GAMMA_TABLE_SIZE))) /\
         0 <= gamma_value i < 2 ^ 16) /\
      (forall i off,
         0 <= i < GAMMA_TABLE_SIZE -> GAMMA_TABLE_SIZE <= 2 ^ 31 ->
         0 <= base -> 0 <= off -> base + off + 2 * i < 2 ^ UINTPTR_BITS ->
         lut_addr base off i = base + off + 2 * i)).
  unfold pipe_init. wp_exec.
  all: eval_existsb @gamma_lut_initialized; try discriminate.
  all: intros _; eexists; (split; [ find_event | ]); cbv zeta.
  all: match goal with
       | |- out16s ?t = gamma_table ?b /\ _ =>
           assert (Ho : out16s t = gamma_table b)
             by (eval_view @out16 @out16s; rewrite app_nil_r;
                 apply out16s_gamma_trace);
           rewrite Ho; clear Ho
       end.
  all: split; [ reflexivity | split ].
  all: try (intros i Hi; split;
            [ apply (lut_entries_in_table _ i Hi)
            | split; [ reflexivity | apply double_to_u16_range ] ]).
  all: intros i off Hi Hs Hb Hoff Hfit; apply lut_addr_exact; lia.
Qed.

(** * Further properties of the two functions *)

(** ** Stopping at a failure *)

Lemma tested_failure_is_driver_call (e : Event) :
  tested_failure e = true -> is_driver_call e = true.
Proof. destruct e; cbn; intros H; first [ reflexivity | discriminate H ]. Qed.

Lemma stops_at_tested_failure_split (t pre post : list Event) (e : Event) :
  stops_at_tested_failure t = true ->
  t = pre ++ e :: post ->
  tested_failure e = true ->
  existsb is_driver_call post = false.
Proof.
  intros Hstop -> He. induction pre as [|x pre IH]; cbn [app] in Hstop;
    cbn [stops_at_tested_failure] in Hstop.
  - rewrite He in Hstop. apply negb_true_iff in Hstop. exact Hstop.
  - destruct (tested_failure x).
    + apply negb_true_iff in Hstop.
      rewrite existsb_app in Hstop. cbn [existsb] in Hstop.
      rewrite (tested_failure_is_driver_call e He), orb_true_r in Hstop.
      discriminate.
    + apply IH, Hstop.
Qed.

Lemma stops_at_tested_failure_gamma (base : Z) (n : nat) (i : Z) (rest : list Event) :
  stops_at_tested_failure (gamma_trace base n i ++ rest)
  = stops_at_tested_failure rest.
Proof.
  revert i. induction n as [|n IH]; intros i; [reflexivity|].
  cbn [gamma_trace gamma_writes app stops_at_tested_failure tested_failure].
  apply IH.
Qed.

(** X1. Once a failure that [pipe_init] tests for has been reported, no
    further driver is called and no register is written: only console output
    and the assignment of the flag may follow, and the result is
    [XST_FAILURE]. *)
Theorem pipe_init_stops_at_tested_failure (devids : VideoPipeDevIds) (m : Mem)
    (pre post : list Event) (e : Event) :
  trace (pipe_init devids) m = pre ++ e :: post ->
  tested_failure e = true ->
  existsb is_driver_call post = false /\
  result (pipe_init devids) m = XST_FAILURE.
Proof.
  intros Ht He.
  assert (H : stops_at_tested_failure (trace (pipe_init devids) m) = true /\
              (existsb tested_failure (trace (pipe_init devids) m) = true ->
               result (pipe_init devids) m = XST_FAILURE)).
  { clear Ht He pre post e.
    wp_start (fun r (_ : Mem) t =>
      stops_at_tested_failure t = true /\
      (existsb tested_failure t = true -> r = XST_FAILURE)).
    unfold pipe_init. wp_exec.
    all: split;
      [ repeat (progress
          (cbn [stops_at_tested_failure tested_failure existsb is_driver_call
                negb orb];
           use_tests; rewrite ?stops_at_tested_failure_gamma));
        reflexivity
      | eval_existsb @tested_failure; first [ reflexivity | discriminate ] ]. }
  destruct H as [Hstop Hres]. split.
  - exact (stops_at_tested_failure_split _ _ _ _ Hstop Ht He).
  - apply Hres. rewrite Ht, existsb_app. cbn [existsb].
    rewrite He. apply orb_true_r.
Qed.

(** ** Console output *)

(** X2. [pipe_init] prints nothing when it succeeds and nothing when the
    camera initialization reports [XST_FAILURE]; on every other failure it
    prints exactly one message, as the last thing it does. *)
Theorem pipe_init_console (devids : VideoPipeDevIds) (m : Mem) :
  let t := trace (pipe_init devids) m in
  let r := result (pipe_init devids) m in
  (r = XST_SUCCESS /\ console t = []) \/
  (r = XST_FAILURE /\ existsb camera_failure t = true /\ console t = []) \/
  (r = XST_FAILURE /\ existsb camera_failure t = false /\
   exists pre msg, t = pre ++ [Evxil_printf msg] /\ console pre = []).
Proof.
  wp_start (fun r (_ : Mem) t =>
    (r = XST_SUCCESS /\ console t = []) \/
    (r = XST_FAILURE /\ existsb camera_failure t = true /\ console t = []) \/
    (r = XST_FAILURE /\ existsb camera_failure t = false /\
     exists pre msg, t = pre ++ [Evxil_printf msg] /\ console pre = [])).
  unfold pipe_init. wp_exec.
  all: try solve
    [ right; right; split; [ reflexivity | ];
      split; [ eval_existsb @camera_failure; reflexivity | ];
      eexists _, _;
      split; [ split_end | eval_view @console_line @console; reflexivity ] ].
  - right; left. split; [ reflexivity | ].
    split; [ eval_existsb @camera_failure; reflexivity
           | eval_view @console_line @console; reflexivity ].
  - left. split; [ reflexivity | eval_view @console_line @console; reflexivity ].
Qed.

(** ** What a failed run leaves alone *)

(** X3. An instance of the pipe whose initialization call was not reached is
    left exactly as it was: this holds for the I2C bus, the camera, the frame
    buffer, the demosaic core, the gamma LUT and the video processing
    subsystem, and the interrupt controller is untouched unless the I2C
    initialization was called. *)
Theorem pipe_init_untouched_instances (devids : VideoPipeDevIds) (m : Mem) :
  let steps := init_steps (trace (pipe_init devids) m) in
  let m' := final (pipe_init devids) m in
  (In StepI2C steps \/
   (Iic (m_pipe m') = Iic (m_pipe m) /\ m_intc m' = m_intc m)) /\
  (In StepCamera steps \/ Camera (m_pipe m') = Camera (m_pipe m)) /\
  (In StepFrmbufWr steps \/ Frmbuf (m_pipe m') = Frmbuf (m_pipe m)) /\
  (In StepDemosaic steps \/ Demosaic (m_pipe m') = Demosaic (m_pipe m)) /\
  (In StepGammaLut steps \/ GammaLut (m_pipe m') = GammaLut (m_pipe m)) /\
  (In StepVproc steps \/ Vproc (m_pipe m') = Vproc (m_pipe m)).
Proof.
  wp_start (fun (_ : Z) m' t =>
    let steps := init_steps t in
    (In StepI2C steps \/
     (Iic (m_pipe m') = Iic (m_pipe m) /\ m_intc m' = m_intc m)) /\
    (In StepCamera steps \/ Camera (m_pipe m') = Camera (m_pipe m)) /\
    (In StepFrmbufWr steps \/ Frmbuf (m_pipe m') = Frmbuf (m_pipe m)) /\
    (In StepDemosaic steps \/ Demosaic (m_pipe m') = Demosaic (m_pipe m)) /\
    (In StepGammaLut steps \/ GammaLut (m_pipe m') = GammaLut (m_pipe m)) /\
    (In StepVproc steps \/ Vproc (m_pipe m') = Vproc (m_pipe m))).
  unfold pipe_init. wp_exec.
  all: cbv zeta; eval_view @init_step @init_steps;
    cbn [m_pipe m_intc Iic Camera Frmbuf Demosaic GammaLut Vproc
         set_Gpio set_Iic set_Camera set_Frmbuf set_Demosaic set_GammaLut
         set_Vproc set_IsConnected In].
  all: repeat split;
    first [ right; reflexivity | right; split; reflexivity | left; tauto ].
Qed.

(** ** The arguments of the initialization calls *)

(** X4. Each initialization call gets its own fields of [devids]: the two
    frame buffer initializations get their own device and interrupt ids and
    the same buffer base address, and the camera initialization gets the
    value that [IicAxiInit] left in [iic_id] together with the CAM_IO0
    mask. *)
Theorem pipe_init_call_arguments (devids : VideoPipeDevIds) (m : Mem) :
  exists iic_id rest,
    init_args (trace (pipe_init devids) m) ++ rest =
    [ ArgsGpio (devids_Gpio devids);
      ArgsIic (devids_Iic devids) (devids_IicIntr devids) iic_id;
      ArgsCamera iic_id GPIO_CAM_IO0_MASK;
      ArgsFrmbufWr (devids_FrmbufWr devids) (devids_FrmbufWrIntr devids)
                   (devids_FrmbufBufrBaseAddr devids);
      ArgsFrmbufRd (devids_FrmbufRd devids) (devids_FrmbufRdIntr devids)
                   (devids_FrmbufBufrBaseAddr devids);
      ArgsDemosaic (devids_Demosaic devids);
      ArgsGammaLut (devids_GammaLut devids);
      ArgsVprocLookup (devids_Vproc devids) ].
Proof.
  wp_start (fun (_ : Z) (_ : Mem) t =>
    exists iic_id rest,
      init_args t ++ rest =
      [ ArgsGpio (devids_Gpio devids);
        ArgsIic (devids_Iic devids) (devids_IicIntr devids) iic_id;
        ArgsCamera iic_id GPIO_CAM_IO0_MASK;
        ArgsFrmbufWr (devids_FrmbufWr devids) (devids_FrmbufWrIntr devids)
                     (devids_FrmbufBufrBaseAddr devids);
        ArgsFrmbufRd (devids_FrmbufRd devids) (devids_FrmbufRdIntr devids)
                     (devids_FrmbufBufrBaseAddr devids);
        ArgsDemosaic (devids_Demosaic devids);
        ArgsGammaLut (devids_GammaLut devids);
        ArgsVprocLookup (devids_Vproc devids) ]).
  unfold pipe_init. wp_exec.
  all: eval_view @init_arg @init_args.
  all: first [ exists 0; eexists; reflexivity | eexists _, _; reflexivity ].
Qed.

(** ** The video processing subsystem *)

(** X5. The calls on the video processing subsystem follow one protocol: the
    configuration is looked up; if there is none nothing else is called; else
    the log is reset and the subsystem is initialized with the configuration
    found and with its base address as effective address; and only when that
    succeeds are the input stream, the output stream and the subsystem
    configuration set, in this order. *)
Theorem pipe_init_vproc_protocol (devids : VideoPipeDevIds) (m : Mem) :
  let calls := vproc_calls (trace (pipe_init devids) m) in
  let r := result (pipe_init devids) m in
  (r = XST_FAILURE /\ calls = []) \/
  (r = XST_FAILURE /\ calls = [VpLookupConfig None]) \/
  (r = XST_FAILURE /\
   exists c s,
     s <> XST_SUCCESS /\
     calls = [ VpLookupConfig (Some c); VpLogReset;
               VpCfgInitialize c (VprocSsConfig_BaseAddress c) s ]) \/
  (r = XST_SUCCESS /\
   exists c,
     calls = [ VpLookupConfig (Some c); VpLogReset;
               VpCfgInitialize c (VprocSsConfig_BaseAddress c) XST_SUCCESS;
               VpSetVidStreamIn; VpSetVidStreamOut; VpSetSubsystemConfig ]).
Proof.
  wp_start (fun r (_ : Mem) t =>
    let calls := vproc_calls t in
    (r = XST_FAILURE /\ calls = []) \/
    (r = XST_FAILURE /\ calls = [VpLookupConfig None]) \/
    (r = XST_FAILURE /\
     exists c s,
       s <> XST_SUCCESS /\
       calls = [ VpLookupConfig (Some c); VpLogReset;
                 VpCfgInitialize c (VprocSsConfig_BaseAddress c) s ]) \/
    (r = XST_SUCCESS /\
     exists c,
       calls = [ VpLookupConfig (Some c); VpLogReset;
                 VpCfgInitialize c (VprocSsConfig_BaseAddress c) XST_SUCCESS;
                 VpSetVidStreamIn; VpSetVidStreamOut; VpSetSubsystemConfig ])).
  unfold pipe_init. wp_exec.
  all: cbv zeta; eval_view @vproc_call @vproc_calls.
  all: try solve [ left; split; reflexivity ].
  all: try solve [ right; left; split; reflexivity ].
  - right; right; left. split; [ reflexivity | ].
    eexists _, _. split; [ | reflexivity ].
    apply Z.eqb_neq. assumption.
  - right; right; right. split; [ reflexivity | ].
    match goal with
    | H : (fst (XVprocSs_CfgInitialize _ _ _) =? XST_SUCCESS) = true |- _ =>
        apply Z.eqb_eq in H; rewrite H
    end.
    eexists. reflexivity.
Qed.

(** X6. The colour depth and the pixels per clock of every stream description
    are those of the configuration of the very instance the description is
    handed to, as that instance is at the moment of the call. *)
Theorem pipe_init_stream_depth (devids : VideoPipeDevIds) (m : Mem) :
  Forall (fun vs =>
            ColorDepth (snd vs) = Vproc_Config_ColorDepth (fst vs) /\
            PixPerClk (snd vs) = Vproc_Config_PixPerClock (fst vs))
         (stream_calls (trace (pipe_init devids) m)).
Proof.
  wp_start (fun (_ : Z) (_ : Mem) t =>
    Forall (fun vs =>
              ColorDepth (snd vs) = Vproc_Config_ColorDepth (fst vs) /\
              PixPerClk (snd vs) = Vproc_Config_PixPerClock (fst vs))
           (stream_calls t)).
  unfold pipe_init. wp_exec.
  all: eval_view @stream_call @stream_calls.
  all: repeat constructor.
Qed.

(** ** Programming the two cores *)

Lemma gamma_calls_gamma_trace (base : Z) (n : nat) (i : Z) :
  flat_map gamma_call (gamma_trace base n i)
  = map GmOut16 (out16s (gamma_trace base n i)).
Proof.
  revert i. induction n as [|n IH]; intros i; [reflexivity|].
  cbn [gamma_trace]. unfold out16s in *.
  rewrite !flat_map_app, map_app, IH. reflexivity.
Qed.

(** X7. The gamma LUT core is programmed in one fixed sequence: after a
    successful initialization the width, the height and the video format [0]
    are written, then the whole table, and only then is the core started and
    its auto-restart enabled (in this order).  When the initialization fails
    nothing else is done to the core, and no 16-bit write is ever made
    outside this sequence. *)
Theorem pipe_init_gamma_protocol (devids : VideoPipeDevIds) (m : Mem) :
  let calls := gamma_calls (trace (pipe_init devids) m) in
  calls = [] \/
  (exists s, s <> XST_SUCCESS /\ calls = [GmInitialize s]) \/
  (exists base,
     calls = [ GmInitialize XST_SUCCESS; GmWidth VMODE_WIDTH;
               GmHeight VMODE_HEIGHT; GmVideoFormat 0 ]
             ++ map GmOut16 (gamma_table base)
             ++ [ GmStart base; GmEnableAutoRestart ]).
Proof.
  wp_start (fun (_ : Z) (_ : Mem) t =>
    let calls := gamma_calls t in
    calls = [] \/
    (exists s, s <> XST_SUCCESS /\ calls = [GmInitialize s]) \/
    (exists base,
       calls = [ GmInitialize XST_SUCCESS; GmWidth VMODE_WIDTH;
                 GmHeight VMODE_HEIGHT; GmVideoFormat 0 ]
               ++ map GmOut16 (gamma_table base)
               ++ [ GmStart base; GmEnableAutoRestart ])).
  unfold pipe_init. wp_exec.
  all: cbv zeta; eval_view @gamma_call @gamma_calls.
  all: try solve [ left; reflexivity ].
  all: try solve
    [ right; left; eexists; split; [ apply Z.eqb_neq; eassumption | reflexivity ] ].
  all: right; right.
  all: match goal with
       | H : (fst (XV_gamma_lut_Initialize _ _) =? XST_SUCCESS) = true |- _ =>
           apply Z.eqb_eq in H; rewrite H
       end.
  all: rewrite gamma_calls_gamma_trace, out16s_gamma_trace.
  all: eexists; reflexivity.
Qed.

(** X8. The demosaic core is either not touched at all or programmed
    completely: initialization, width, height, Bayer phase, auto-restart,
    start, in this order, whatever status the initialization reported. *)
Theorem pipe_init_demosaic_protocol (devids : VideoPipeDevIds) (m : Mem) :
  let calls := demosaic_calls (trace (pipe_init devids) m) in
  calls = [] \/
  exists s,
    calls = [ DmInitialize s; DmWidth; DmHeight; DmBayerPhase;
              DmEnableAutoRestart; DmStart ].
Proof.
  wp_start (fun (_ : Z) (_ : Mem) t =>
    let calls := demosaic_calls t in
    calls = [] \/
    exists s,
      calls = [ DmInitialize s; DmWidth; DmHeight; DmBayerPhase;
                DmEnableAutoRestart; DmStart ]).
  unfold pipe_init. wp_exec.
  all: cbv zeta; eval_view @demosaic_call @demosaic_calls.
  all: first [ left; reflexivity | right; eexists; reflexivity ].
Qed.

(** ** The three tables in the address space *)

Lemma gamma_writes_shape (devids : VideoPipeDevIds) (m : Mem) :
  let t := trace (pipe_init devids) m in
  (gamma_bases t = [] /\ out16s t = []) \/
  (exists base, gamma_bases t = [base] /\ out16s t = gamma_table base).
Proof.
  wp_start (fun (_ : Z) (_ : Mem) t =>
    (gamma_bases t = [] /\ out16s t = []) \/
    (exists base, gamma_bases t = [base] /\ out16s t = gamma_table base)).
  unfold pipe_init. wp_exec.
  all: eval_view @gamma_base @gamma_bases; eval_view @out16 @out16s.
  all: try solve [ left; split; reflexivity ].
  all: right; eexists; split; [ reflexivity | ].
  all: rewrite app_nil_r; apply out16s_gamma_trace.
Qed.

Lemma gamma_table_length (base : Z) :
  List.length (gamma_table base) = (3 * Z.to_nat GAMMA_TABLE_SIZE)%nat.
Proof.
  unfold gamma_table.
  rewrite <- (length_seq (Z.to_nat GAMMA_TABLE_SIZE) 0) at 2.
  rewrite <- (length_map Z.of_nat).
  induction (map Z.of_nat (seq 0 (Z.to_nat GAMMA_TABLE_SIZE))) as [|x l IH];
    [ reflexivity | ].
  cbn [flat_map lut_entries app List.length]. rewrite IH. lia.
Qed.

Section Tables.

Variable base : Z.
Hypothesis table_fits : GAMMA_TABLE_SIZE <= 1024.
Hypothesis base_fits : 0 <= base /\ base + 0x2000 <= 2 ^ UINTPTR_BITS.

Lemma lut_addr_in_table (off i : Z) :
  0 <= i < GAMMA_TABLE_SIZE -> 0 <= off <= 0x1800 ->
  lut_addr base off i = base + off + 2 * i.
Proof. intros Hi Hoff. apply lut_addr_exact; lia. Qed.

Lemma lut_entries_addresses (i : Z) :
  0 <= i < GAMMA_TABLE_SIZE ->
  map fst (lut_entries base i)
  = [ base + 0x800 + 2 * i; base + 0x1000 + 2 * i; base + 0x1800 + 2 * i ].
Proof.
  intros Hi. cbn [lut_entries map fst].
  rewrite !lut_addr_in_table by lia. reflexivity.
Qed.

Lemma table_addresses_of (l : list Z) (a : Z) :
  Forall (fun i => 0 <= i < GAMMA_TABLE_SIZE) l ->
  In a (map fst (flat_map (lut_entries base) l)) ->
  exists i off,
    In i l /\ (off = 0x800 \/ off = 0x1000 \/ off = 0x1800) /\
    a = base + off + 2 * i.
Proof.
  intros Hl. induction Hl as [|x l Hx Hl IH]; cbn [flat_map]; [ intros [] | ].
  rewrite map_app, in_app_iff, lut_entries_addresses by exact Hx.
  intros [Ha | Ha].
  - cbn [In] in Ha.
    destruct Ha as [<- | [<- | [<- | []]]];
      exists x; [ exists 0x800 | exists 0x1000 | exists 0x1800 ];
      (split; [ left; reflexivity | split; [ tauto | reflexivity ] ]).
  - destruct (IH Ha) as (i & off & Hi & Hoff & Heq).
    exists i, off. split; [ right; exact Hi | split; assumption ].
Qed.

Lemma table_addresses_NoDup (l : list Z) :
  Forall (fun i => 0 <= i < GAMMA_TABLE_SIZE) l -> NoDup l ->
  NoDup (map fst (flat_map (lut_entries base) l)).
Proof.
  intros Hl Hnd. induction Hl as [|x l Hx Hl IH]; cbn [flat_map]; [ constructor | ].
  apply NoDup_cons_iff in Hnd as [Hnotin Hnd].
  rewrite map_app, lut_entries_addresses by exact Hx.
  apply NoDup_app.
  - repeat constructor; cbn [In]; lia.
  - apply IH, Hnd.
  - intros a Ha Hin.
    destruct (table_addresses_of l a Hl Hin) as (i & off & Hi & Hoff & Heq).
    assert (Hr : 0 <= i < GAMMA_TABLE_SIZE)
      by (rewrite Forall_forall in Hl; apply Hl, Hi).
    assert (i = x) by (cbn [In] in Ha; lia).
    subst i. contradiction.
Qed.

End Tables.

Lemma table_indices :
  Forall (fun i => 0 <= i < GAMMA_TABLE_SIZE)
         (map Z.of_nat (seq 0 (Z.to_nat GAMMA_TABLE_SIZE))) /\
  NoDup (map Z.of_nat (seq 0 (Z.to_nat GAMMA_TABLE_SIZE))).
Proof.
  split.
  - apply Forall_forall. intros i Hi. apply in_map_iff in Hi as (k & <- & Hk).
    apply in_seq in Hk. lia.
  - generalize (seq_NoDup (Z.to_nat GAMMA_TABLE_SIZE) 0).
    induction 1 as [|k l Hk Hl IH]; cbn [map]; constructor; [ | exact IH ].
    intros Hin. apply in_map_iff in Hin as (k' & Heq & Hk').
    apply Nat2Z.inj in Heq. subst k'. contradiction.
Qed.

(** X9. With at most 1024 entries per table and the three tables inside the
    address space, no address is written twice: the writes of a run go to
    [3 * GAMMA_TABLE_SIZE] different addresses, all in the window
    [BaseAddress + 0x800 .. BaseAddress + 0x2000) of the gamma LUT instance,
    and a run that does not get to the gamma curve writes none. *)
Theorem gamma_tables_do_not_overlap (devids : VideoPipeDevIds) (m : Mem) :
  let t := trace (pipe_init devids) m in
  GAMMA_TABLE_SIZE <= 1024 ->
  Forall (fun b => 0 <= b /\ b + 0x2000 <= 2 ^ UINTPTR_BITS) (gamma_bases t) ->
  NoDup (map fst (out16s t)) /\
  Forall (fun b =>
            Forall (fun a => b + 0x800 <= a < b + 0x2000) (map fst (out16s t)))
         (gamma_bases t) /\
  List.length (out16s t)
  = (List.length (gamma_bases t) * (3 * Z.to_nat GAMMA_TABLE_SIZE))%nat.
Proof.
  intros t Hsize Hbase.
  destruct (gamma_writes_shape devids m) as [[Hb Ho] | (base & Hb & Ho)];
    fold t in Hb, Ho; rewrite Hb in *; rewrite Ho.
  - repeat split; constructor.
  - apply Forall_inv in Hbase.
    destruct table_indices as [Hidx Hnd].
    split; [ apply table_addresses_NoDup; assumption | ].
    split; [ | rewrite gamma_table_length; cbn [List.length]; lia ].
    constructor; [ | constructor ].
    apply Forall_forall. intros a Ha.
    destruct (table_addresses_of base Hsize Hbase _ a Hidx Ha)
      as (i & off & Hi & Hoff & ->).
    rewrite Forall_forall in Hidx. specialize (Hidx i Hi). lia.
Qed.

(** ** [pipe_start_camera] *)

(** X10. [pipe_start_camera] changes nothing of the pipe but the camera and
    the frame buffer, each as its driver leaves it: the flag
    [pipe->IsConnected], the GPIO, the I2C bus, the two cores and the video
    processing subsystem are as before; and whatever [rpi_cam_config]
    reported, the result is the status of [FrmbufStart]. *)
Theorem pipe_start_camera_frame (m : Mem) :
  let m' := final pipe_start_camera m in
  Gpio (m_pipe m') = Gpio (m_pipe m) /\
  Iic (m_pipe m') = Iic (m_pipe m) /\
  Demosaic (m_pipe m') = Demosaic (m_pipe m) /\
  GammaLut (m_pipe m') = GammaLut (m_pipe m) /\
  Vproc (m_pipe m') = Vproc (m_pipe m) /\
  IsConnected (m_pipe m') = IsConnected (m_pipe m) /\
  m_intc m' = m_intc m /\
  Camera (m_pipe m') = snd (rpi_cam_config (Camera (m_pipe m))) /\
  Frmbuf (m_pipe m') = snd (FrmbufStart (Frmbuf (m_pipe m))) /\
  result pipe_start_camera m = fst (FrmbufStart (Frmbuf (m_pipe m))).
Proof.
  wp_start (fun r m' (_ : list Event) =>
    Gpio (m_pipe m') = Gpio (m_pipe m) /\
    Iic (m_pipe m') = Iic (m_pipe m) /\
    Demosaic (m_pipe m') = Demosaic (m_pipe m) /\
    GammaLut (m_pipe m') = GammaLut (m_pipe m) /\
    Vproc (m_pipe m') = Vproc (m_pipe m) /\
    IsConnected (m_pipe m') = IsConnected (m_pipe m) /\
    m_intc m' = m_intc m /\
    Camera (m_pipe m') = snd (rpi_cam_config (Camera (m_pipe m))) /\
    Frmbuf (m_pipe m') = snd (FrmbufStart (Frmbuf (m_pipe m))) /\
    r = fst (FrmbufStart (Frmbuf (m_pipe m)))).
  unfold pipe_start_camera. wp_exec.
  repeat split.
Qed.

(** X11. After a [pipe_init] that returned [XST_SUCCESS], running
    [pipe_start_camera] leaves the flag [pipe->IsConnected] at [TRUE],
    configures the very camera [pipe_init] left in the pipe and returns the
    status of starting the frame buffer [pipe_init] left there. *)
Theorem pipe_start_camera_after_pipe_init (devids : VideoPipeDevIds) (m : Mem) :
  result (pipe_init devids) m = XST_SUCCESS ->
  let m1 := final (pipe_init devids) m in
  IsConnected (m_pipe (final pipe_start_camera m1)) = TRUE /\
  (exists s, hd_error (trace pipe_start_camera m1)
             = Some (Evrpi_cam_config (Camera (m_pipe m1)) s)) /\
  result pipe_start_camera m1 = fst (FrmbufStart (Frmbuf (m_pipe m1))).
Proof.
  intros Hok m1.
  destruct (pipe_start_camera_frame m1)
    as (_ & _ & _ & _ & _ & Hflag & _ & _ & _ & Hres).
  rewrite Hflag. split; [ | split; [ | exact Hres ] ].
  - subst m1. revert Hok.
    wp_start (fun r m' (_ : list Event) =>
      r = XST_SUCCESS -> IsConnected (m_pipe m') = TRUE).
    unfold pipe_init. wp_exec.
    all: intros Hr; try (exfalso; exact (failure_neq_success Hr)).
    reflexivity.
  - generalize m1. clear. intros m1.
    wp_start (fun (_ : Z) (_ : Mem) t =>
      exists s, hd_error t = Some (Evrpi_cam_config (Camera (m_pipe m1)) s)).
    unfold pipe_start_camera. wp_exec. eexists. reflexivity.
Qed.

(** ** The camera test *)

(** X12. Only the status [XST_FAILURE] of the camera initialization stops
    [pipe_init]: after any other status, [XST_SUCCESS] or not, the frame
    buffer write initialization is called and the flag is never set to
    [FALSE]. *)
Theorem pipe_init_camera_other_status (devids : VideoPipeDevIds) (m : Mem) :
  let t := trace (pipe_init devids) m in
  existsb camera_passed t = true ->
  In StepFrmbufWr (init_steps t) /\
  (flag_writes t = [] \/ flag_writes t = [TRUE]).
Proof.
  wp_start (fun (_ : Z) (_ : Mem) t =>
    existsb camera_passed t = true ->
    In StepFrmbufWr (init_steps t) /\
    (flag_writes t = [] \/ flag_writes t = [TRUE])).
  unfold pipe_init. wp_exec.
  all: eval_existsb @camera_passed; try discriminate.
  all: intros _; eval_view @init_step @init_steps;
    eval_view @flag_write @flag_writes.
  all: split; [ cbn [In]; tauto | first [ left; reflexivity | right; reflexivity ] ].
Qed.

(** ** The GPIO words *)

(** X13. The only GPIO registers [pipe_init] writes are, on channel 1, the
    direction and then the data.  For camera masks without a common bit the
    direction word has, among its 32 bits, a zero (output) exactly at the
    bits of the two masks, and the data word is the CAM_IO0 mask. *)
Theorem pipe_init_gpio_words (devids : VideoPipeDevIds) (m : Mem) :
  Z.land GPIO_CAM_IO0_MASK GPIO_CAM_IO1_MASK = 0 ->
  exists w,
    (gpio_writes (trace (pipe_init devids) m) = [] \/
     gpio_writes (trace (pipe_init devids) m)
     = [ GpioDirection 1 w; GpioData 1 (u32 GPIO_CAM_IO0_MASK) ]) /\
    forall n, 0 <= n < 32 ->
      Z.testbit w n
      = negb (Z.testbit GPIO_CAM_IO0_MASK n || Z.testbit GPIO_CAM_IO1_MASK n).
Proof.
  intros Hdisj.
  exists (u32 (Z.lnot (GPIO_CAM_IO0_MASK + GPIO_CAM_IO1_MASK))).
  split; [ | intros n Hn; apply direction_word_bits; assumption ].
  wp_start (fun (_ : Z) (_ : Mem) t =>
    gpio_writes t = [] \/
    gpio_writes t
    = [ GpioDirection 1 (u32 (Z.lnot (GPIO_CAM_IO0_MASK + GPIO_CAM_IO1_MASK)));
        GpioData 1 (u32 GPIO_CAM_IO0_MASK) ]).
  unfold pipe_init. wp_exec.
  all: eval_view @gpio_write @gpio_writes.
  all: first [ left; reflexivity | right; reflexivity ].
Qed.

End PipeFacts.

(** * Runs on the simulated board *)

(** C1. The claim that every failing step makes [pipe_init] return
    [XST_FAILURE] at once does not hold of the code: when
    [XV_demosaic_Initialize] reports [XST_FAILURE], and likewise when
    [XVprocSs_SetSubsystemConfig] does, all eight initialization steps are
    made and the result is [XST_SUCCESS]. *)
Theorem unchecked_failures_return_success :
  (let t := trace (sim_pipe_init Sim.demosaic_fails) (Sim.fresh Sim.demosaic_fails 0) in
   nth_error t 7 = Some (EvXV_demosaic_Initialize (drv := Sim.drivers Sim.demosaic_fails)
                           0 4 (@XST_FAILURE Sim.xil)) /\
   nth_error t 14 = Some (EvXV_gamma_lut_Initialize (drv := Sim.drivers Sim.demosaic_fails)
                            0 5 (@XST_SUCCESS Sim.xil)) /\
   init_steps t = pipe_init_order /\
   result (sim_pipe_init Sim.demosaic_fails) (Sim.fresh Sim.demosaic_fails 0)
   = @XST_SUCCESS Sim.xil) /\
  (let t := trace (sim_pipe_init Sim.subsystem_fails) (Sim.fresh Sim.subsystem_fails 0) in
   last t (Evxil_printf EmptyString) = EvWrite_IsConnected (@TRUE Sim.xil) /\
   last (removelast t) (Evxil_printf EmptyString)
   = EvXVprocSs_SetSubsystemConfig (drv := Sim.drivers Sim.subsystem_fails)
       (8, 2) (@XST_FAILURE Sim.xil) /\
   init_steps t = pipe_init_order /\
   result (sim_pipe_init Sim.subsystem_fails) (Sim.fresh Sim.subsystem_fails 0)
   = @XST_SUCCESS Sim.xil).
Proof.
  split; cbv zeta.
  - split; [ reflexivity | ]. split; [ reflexivity | ].
    split; vm_compute; reflexivity.
  - split; [ reflexivity | ]. split; [ reflexivity | ].
    split; vm_compute; reflexivity.
Qed.

(** C2. The claim that a failing [rpi_cam_config] makes [pipe_start_camera]
    return a failure does not hold of the code: the frame buffer is started
    all the same and its status is what is returned. *)
Theorem cam_config_failure_is_overwritten :
  trace (sim_pipe_start_camera Sim.cam_config_fails) (Sim.fresh Sim.cam_config_fails 0)
  = [ Evrpi_cam_config (drv := Sim.drivers Sim.cam_config_fails) 0 (@XST_FAILURE Sim.xil);
      EvFrmbufStart (drv := Sim.drivers Sim.cam_config_fails) 0 (@XST_SUCCESS Sim.xil) ] /\
  result (sim_pipe_start_camera Sim.cam_config_fails) (Sim.fresh Sim.cam_config_fails 0)
  = @XST_SUCCESS Sim.xil.
Proof. split; reflexivity. Qed.

(** C7. The result of [pipe_init] is [XST_SUCCESS] or [XST_FAILURE] for every
    input, so no other status code of a driver is ever handed on; but not
    every failing step is turned into [XST_FAILURE]: when
    [XV_demosaic_Initialize] reports [XST_FAILURE] the result is
    [XST_SUCCESS]. *)
Theorem failing_step_not_mapped_to_failure :
  (forall (xil : XilTypes) (cm : CMath) (cfg : Config) (drv : Drivers)
          (devids : VideoPipeDevIds) (m : Mem),
     result (pipe_init devids) m = XST_SUCCESS \/
     result (pipe_init devids) m = XST_FAILURE) /\
  (nth_error (trace (sim_pipe_init Sim.demosaic_fails)
                    (Sim.fresh Sim.demosaic_fails 0)) 7
   = Some (EvXV_demosaic_Initialize (drv := Sim.drivers Sim.demosaic_fails)
             0 4 (@XST_FAILURE Sim.xil)) /\
   result (sim_pipe_init Sim.demosaic_fails) (Sim.fresh Sim.demosaic_fails 0)
   <> @XST_FAILURE Sim.xil).
Proof.
  split.
  - intros. apply pipe_init_result_cases.
  - split; [ reflexivity | vm_compute; discriminate ].
Qed.

(** C8. [pipe_init] assigns [pipe->IsConnected] in two places only: [TRUE] as
    the last thing before it returns [XST_SUCCESS], and [FALSE] right after a
    camera initialization that reported [XST_FAILURE]; on every other failure
    the flag is never assigned and keeps the value it had.  So a result of
    [XST_FAILURE] does not tell that the flag is [FALSE]: when the GPIO
    driver fails on a pipe whose flag is [TRUE], it is still [TRUE]. *)
Theorem IsConnected_after_pipe_init :
  (forall (xil : XilTypes) (cm : CMath) (cfg : Config) (drv : Drivers)
          (devids : VideoPipeDevIds) (m : Mem),
     flag_outcome m (result (pipe_init devids) m) (final (pipe_init devids) m)
                  (trace (pipe_init devids) m)) /\
  (result (sim_pipe_init Sim.gpio_fails) (Sim.fresh Sim.gpio_fails (@TRUE Sim.xil))
   = @XST_FAILURE Sim.xil /\
   IsConnected (m_pipe (final (sim_pipe_init Sim.gpio_fails)
                              (Sim.fresh Sim.gpio_fails (@TRUE Sim.xil))))
   = @TRUE Sim.xil /\
   @TRUE Sim.xil <> @FALSE Sim.xil).
Proof.
  split.
  - intros. apply pipe_init_flag.
  - split; [ vm_compute; reflexivity | ].
    split; [ vm_compute; reflexivity | apply TRUE_neq_FALSE ].
Qed.

(** Evidence that C3's premise can be met: on the board where every driver
    succeeds. *)
Lemma pipe_init_steps_in_order_witness :
  existsb (reports_failure (xil := Sim.xil))
    (trace (sim_pipe_init Sim.all_ok) (Sim.fresh Sim.all_ok 0)) = false /\
  (init_steps (trace (sim_pipe_init Sim.all_ok) (Sim.fresh Sim.all_ok 0))
   = pipe_init_order /\
   result (sim_pipe_init Sim.all_ok) (Sim.fresh Sim.all_ok 0) = @XST_SUCCESS Sim.xil).
Proof.
  split.
  - vm_compute. reflexivity.
  - apply (proj2 (@pipe_init_steps_in_order Sim.xil Sim.cmath Sim.cfg
                    (Sim.drivers Sim.all_ok) Sim.devids (Sim.fresh Sim.all_ok 0))).
    vm_compute. reflexivity.
Defined.

(** Evidence that C6's premise can be met. *)
Lemma gamma_curve_written_witness :
  existsb (gamma_lut_initialized (xil := Sim.xil))
    (trace (sim_pipe_init Sim.all_ok) (Sim.fresh Sim.all_ok 0)) = true /\
  exists l,
    In (EvXV_gamma_lut_Start l)
       (trace (sim_pipe_init Sim.all_ok) (Sim.fresh Sim.all_ok 0)) /\
    out16s (trace (sim_pipe_init Sim.all_ok) (Sim.fresh Sim.all_ok 0))
    = gamma_table (xil := Sim.xil) (cfg := Sim.cfg)
        (GammaLut_Config_BaseAddress l).
Proof.
  split.
  - vm_compute. reflexivity.
  - destruct (@gamma_curve_written Sim.xil Sim.cmath Sim.cfg
                (Sim.drivers Sim.all_ok) Sim.devids (Sim.fresh Sim.all_ok 0))
      as (l & Hin & Hout & _).
    + vm_compute. reflexivity.
    + exists l. split; [ exact Hin | exact Hout ].
Defined.

(** Evidence that C9's premises can be met: the fifth event of a run on the
    board whose camera fails is the camera initialization. *)
Lemma camera_powered_before_init_witness :
  let t := trace (sim_pipe_init Sim.camera_fails) (Sim.fresh Sim.camera_fails 0) in
  let e := Evrpi_cam_init (drv := Sim.drivers Sim.camera_fails)
             0 1 (4294967292, 1) 1 1 in
  t = firstn 4 t ++ e :: skipn 5 t /\
  is_iic_or_camera_init e = true /\
  exists g1 g2 a b c,
    firstn 4 t
    = a ++ EvXGpio_SetDataDirection g1 1 (u32 (Z.lnot (1 + 2)))
        :: b ++ EvXGpio_DiscreteWrite g2 1 (u32 1) :: c.
Proof.
  intros t e.
  assert (Ht : t = firstn 4 t ++ e :: skipn 5 t) by reflexivity.
  assert (He : is_iic_or_camera_init e = true) by reflexivity.
  split; [ exact Ht | split; [ exact He | ] ].
  exact (@camera_powered_before_init Sim.xil Sim.cmath Sim.cfg
           (Sim.drivers Sim.camera_fails) Sim.devids (Sim.fresh Sim.camera_fails 0)
           (firstn 4 t) (skipn 5 t) e Ht He).
Defined.

(** * Further runs on the simulated board *)

(** Evidence that X1's premises can be met: the sixth event of a run on the
    board whose frame buffer write initialization fails is that failure. *)
Lemma pipe_init_stops_at_tested_failure_witness :
  let t := trace (sim_pipe_init Sim.frmbuf_wr_fails) (Sim.fresh Sim.frmbuf_wr_fails 0) in
  let e := EvFrmbufWrInit (drv := Sim.drivers Sim.frmbuf_wr_fails)
             0 2 [121] 122 268435456 1 in
  t = firstn 5 t ++ e :: skipn 6 t /\
  tested_failure (xil := Sim.xil) e = true /\
  existsb is_driver_call (skipn 6 t) = false /\
  result (sim_pipe_init Sim.frmbuf_wr_fails) (Sim.fresh Sim.frmbuf_wr_fails 0)
  = @XST_FAILURE Sim.xil.
Proof.
  intros t e.
  assert (Ht : t = firstn 5 t ++ e :: skipn 6 t) by reflexivity.
  assert (He : tested_failure (xil := Sim.xil) e = true) by reflexivity.
  split; [ exact Ht | split; [ exact He | ] ].
  exact (@pipe_init_stops_at_tested_failure Sim.xil Sim.cmath Sim.cfg
           (Sim.drivers Sim.frmbuf_wr_fails) Sim.devids
           (Sim.fresh Sim.frmbuf_wr_fails 0) (firstn 5 t) (skipn 6 t) e Ht He).
Defined.

(** Evidence that X9's premises can be met: 1024 entries per table at base
    address [0xA0030000] of a 64-bit address space. *)
Lemma gamma_tables_do_not_overlap_witness :
  let t := trace (sim_pipe_init Sim.all_ok) (Sim.fresh Sim.all_ok 0) in
  @GAMMA_TABLE_SIZE Sim.cmath Sim.cfg <= 1024 /\
  gamma_bases t = [0xA0030000] /\
  NoDup (map fst (out16s t)) /\
  List.length (out16s t) = 3072%nat.
Proof.
  intros t.
  assert (Hsize : @GAMMA_TABLE_SIZE Sim.cmath Sim.cfg <= 1024)
    by (vm_compute; discriminate).
  assert (Hb : gamma_bases t = [0xA0030000]) by (vm_compute; reflexivity).
  assert (Hbase : Forall (fun b => 0 <= b /\ b + 0x2000 <= 2 ^ @UINTPTR_BITS Sim.xil)
                         (gamma_bases t)).
  { rewrite Hb. constructor; [ | constructor ].
    split; vm_compute; discriminate. }
  destruct (@gamma_tables_do_not_overlap Sim.xil Sim.cmath Sim.cfg
              (Sim.drivers Sim.all_ok) Sim.devids (Sim.fresh Sim.all_ok 0)
              Hsize Hbase) as (Hnd & _ & Hlen).
  split; [ exact Hsize | split; [ exact Hb | split; [ exact Hnd | ] ] ].
  fold t in Hlen. rewrite Hlen, Hb. reflexivity.
Defined.

(** Evidence that X11's premise can be met. *)
Lemma pipe_start_camera_after_pipe_init_witness :
  result (sim_pipe_init Sim.all_ok) (Sim.fresh Sim.all_ok 0) = @XST_SUCCESS Sim.xil /\
  IsConnected
    (m_pipe (final (sim_pipe_start_camera Sim.all_ok)
                   (final (sim_pipe_init Sim.all_ok) (Sim.fresh Sim.all_ok 0))))
  = @TRUE Sim.xil.
Proof.
  assert (Hok : result (sim_pipe_init Sim.all_ok) (Sim.fresh Sim.all_ok 0)
                = @XST_SUCCESS Sim.xil) by (vm_compute; reflexivity).
  split; [ exact Hok | ].
  exact (proj1 (@pipe_start_camera_after_pipe_init Sim.xil Sim.cmath Sim.cfg
                  (Sim.drivers Sim.all_ok) Sim.devids (Sim.fresh Sim.all_ok 0)
                  Hok)).
Defined.

(** Evidence that X12's premise can be met: the camera initialization
    reports the status 2. *)
Lemma pipe_init_camera_other_status_witness :
  let t := trace (sim_pipe_init Sim.camera_other_status)
                 (Sim.fresh Sim.camera_other_status 0) in
  existsb (camera_passed (xil := Sim.xil)) t = true /\
  In StepFrmbufWr (init_steps t).
Proof.
  intros t.
  assert (H : existsb (camera_passed (xil := Sim.xil)) t = true)
    by (vm_compute; reflexivity).
  split; [ exact H | ].
  exact (proj1 (@pipe_init_camera_other_status Sim.xil Sim.cmath Sim.cfg
                  (Sim.drivers Sim.camera_other_status) Sim.devids
                  (Sim.fresh Sim.camera_other_status 0) H)).
Defined.

(** Evidence that X13's premise can be met: the masks 1 and 2. *)
Lemma pipe_init_gpio_words_witness :
  Z.land (@GPIO_CAM_IO0_MASK Sim.cmath Sim.cfg) (@GPIO_CAM_IO1_MASK Sim.cmath Sim.cfg) = 0 /\
  exists w,
    (gpio_writes (trace (sim_pipe_init Sim.all_ok) (Sim.fresh Sim.all_ok 0)) = [] \/
     gpio_writes (trace (sim_pipe_init Sim.all_ok) (Sim.fresh Sim.all_ok 0))
     = [ GpioDirection 1 w; GpioData 1 (u32 1) ]) /\
    forall n, 0 <= n < 32 ->
      Z.testbit w n = negb (Z.testbit 1 n || Z.testbit 2 n).
Proof.
  assert (H : Z.land (@GPIO_CAM_IO0_MASK Sim.cmath Sim.cfg)
                     (@GPIO_CAM_IO1_MASK Sim.cmath Sim.cfg) = 0) by reflexivity.
  split; [ exact H | ].
  exact (@pipe_init_gpio_words Sim.xil Sim.cmath Sim.cfg (Sim.drivers Sim.all_ok)
           Sim.devids (Sim.fresh Sim.all_ok 0) H).
Defined.

(** Evidence that C5's premise can be met: on the board where every driver
    succeeds no tested failure is reported and the two streams are set. *)
Lemma pipe_init_stream_parameters_witness :
  let t := trace (sim_pipe_init Sim.all_ok) (Sim.fresh Sim.all_ok 0) in
  existsb (tested_failure (xil := Sim.xil)) t = false /\
  result (sim_pipe_init Sim.all_ok) (Sim.fresh Sim.all_ok 0) = @XST_SUCCESS Sim.xil /\
  exists depth_in ppc_in depth_out ppc_out,
    stream_cfgs t =
    [ StreamIn (fixed_stream (xil := Sim.xil) (cfg := Sim.cfg) 1920 1080 30
                             depth_in ppc_in);
      StreamOut (fixed_stream (xil := Sim.xil) (cfg := Sim.cfg) 1920 1080 60
                              depth_out ppc_out) ].
Proof.
  intros t.
  assert (H : existsb (tested_failure (xil := Sim.xil)) t = false)
    by (vm_compute; reflexivity).
  split; [ exact H | ].
  exact (proj1 (@pipe_init_stream_parameters Sim.xil Sim.cmath Sim.cfg
                  (Sim.drivers Sim.all_ok) Sim.devids (Sim.fresh Sim.all_ok 0)) H).
Defined.

(** Evidence that C10's premise can be met: on the same board the five
    geometry registers are written. *)
Lemma pipe_init_consistent_geometry_witness :
  let t := trace (sim_pipe_init Sim.all_ok) (Sim.fresh Sim.all_ok 0) in
  existsb (tested_failure (xil := Sim.xil)) t = false /\
  result (sim_pipe_init Sim.all_ok) (Sim.fresh Sim.all_ok 0) = @XST_SUCCESS Sim.xil /\
  geom_writes t =
  [ (DemosaicWidth, 1920); (DemosaicHeight, 1080); (DemosaicBayerPhase, 3);
    (GammaWidth, 1920); (GammaHeight, 1080) ] /\
  exists depth ppc s,
    stream_cfgs t =
    [ StreamIn (fixed_stream (xil := Sim.xil) (cfg := Sim.cfg) 1920 1080 30
                             depth ppc);
      StreamOut s ].
Proof.
  intros t.
  assert (H : existsb (tested_failure (xil := Sim.xil)) t = false)
    by (vm_compute; reflexivity).
  destruct (proj1 (@pipe_init_consistent_geometry Sim.xil Sim.cmath Sim.cfg
                     (Sim.drivers Sim.all_ok) Sim.devids (Sim.fresh Sim.all_ok 0)) H)
    as (Hr & _ & Hg & Hs).
  split; [ exact H | split; [ exact Hr | split; [ | exact Hs ] ] ].
  fold t in Hg. rewrite Hg. vm_compute. reflexivity.
Defined.
